(** * fritzconnection: host enumeration, wake-on-LAN resolution and
    call-forwarding list parsing

    A shallow embedding of

      - [fritzconnection/lib/fritzhosts.py]   (class [FritzHosts]),
      - [fritzconnection/cli/fritzwol.py]     (function [wake_host]),
      - [fritzconnection/fritzcallforwarding.py]
                                              (function [parse_call_forwarding_list]),

    followed by the properties of these functions.

    Python values are a small tagged union, dictionaries are finite maps
    from strings, exceptions are an outcome of every computation, and the
    calls a function makes on its collaborators (the SOAP action invoker and
    the HTTP session) are recorded in a trace, so that statements such as
    "the lookup is never invoked" can be made. *)

From Stdlib Require Import ZArith Ascii String.
From stdpp Require Import base option list gmap strings pretty.

Local Open Scope string_scope.
Local Open Scope list_scope.
Local Open Scope nat_scope.
Set Warnings "-register-all".

(** ** Python values *)

Inductive pyval : Type :=
| VNone
| VBool (b : bool)
| VInt (z : Z)
| VStr (s : string).

#[global] Instance pyval_eq_dec : EqDecision pyval.
Proof. solve_decision. Defined.

(** A [dict] with string keys. *)
Abbreviation dict := (gmap string pyval).

(** Keyword arguments of a call, in the order they are written. *)
Abbreviation kwargs := (list (string * pyval)).

(** Truth value testing ([if v:]). *)
Definition truthy (v : pyval) : bool :=
  match v with
  | VNone => false
  | VBool b => b
  | VInt z => negb (z =? 0)%Z
  | VStr s => negb (String.eqb s "")
  end.

(** [str(v)], as an f-string formats a value. *)
Definition py_str (v : pyval) : string :=
  match v with
  | VNone => "None"
  | VBool true => "True"
  | VBool false => "False"
  | VInt z => pretty z
  | VStr s => s
  end.

(** [is_bool v]: [type(v) is bool]. *)
Definition is_bool (v : pyval) : bool :=
  match v with VBool _ => true | _ => false end.

(** ** The builtins [str.lower] and [int]

    A [str] is modelled by the bytes of its UTF-8 encoding.  The two
    builtins that the modelled code applies to strings, [str.lower()] and
    [int()], are the interpreter's and not code of the repository: the
    functions below that use them take them as parameters, [str_lower] and
    [int_of_str] ([None] when [int] raises a ValueError), and every property
    is stated for whatever these builtins compute.

    The two definitions that follow are the instances used in the examples:
    [lower] lowers the ASCII letters and keeps every other byte, as
    [str.lower()] does on an ASCII string; [py_int_of_string] reads a
    decimal literal of ASCII digits (white space around it, one sign,
    single underscores between digits), as [int()] does on an ASCII text
    below the interpreter's limit on the number of digits. *)
Definition lower_ascii (c : ascii) : ascii :=
  let n := nat_of_ascii c in
  if ((65 <=? n) && (n <=? 90))%nat then ascii_of_nat (n + 32) else c.

Fixpoint lower (s : string) : string :=
  match s with
  | EmptyString => EmptyString
  | String c s' => String (lower_ascii c) (lower s')
  end.

(** The ASCII white space that [int] drops: tab, line feed, vertical tab,
    form feed, carriage return and space. *)
Definition py_isspace (c : ascii) : bool :=
  let n := nat_of_ascii c in
  (((9 <=? n) && (n <=? 13)) || (n =? 32))%nat.

Definition digit_of (c : ascii) : option Z :=
  let n := nat_of_ascii c in
  if ((48 <=? n) && (n <=? 57))%nat then Some (Z.of_nat (n - 48)) else None.

Fixpoint lstrip (s : list ascii) : list ascii :=
  match s with
  | c :: s' => if py_isspace c then lstrip s' else s
  | [] => []
  end.

Definition strip (s : list ascii) : list ascii :=
  rev (lstrip (rev (lstrip s))).

(** [digitpart acc prev s]: [s] continues a number whose value so far is
    [acc]; [prev] tells whether the previous character was a digit. *)
Fixpoint digitpart (acc : Z) (prev : bool) (s : list ascii) : option Z :=
  match s with
  | [] => if prev then Some acc else None
  | c :: s' =>
      match digit_of c with
      | Some d => digitpart (10 * acc + d)%Z true s'
      | None =>
          if Ascii.eqb c "_" && prev then digitpart acc false s' else None
      end
  end.

Definition py_int_of_string (s : string) : option Z :=
  match strip (list_ascii_of_string s) with
  | c :: s' =>
      if Ascii.eqb c "-" then Z.opp <$> digitpart 0%Z false s'
      else if Ascii.eqb c "+" then digitpart 0%Z false s'
      else digitpart 0%Z false (c :: s')
  | [] => None
  end.

(** ** Exceptions

    Modelled from the spec: [fritzconnection/core/exceptions.py], which
    declares the exception classes, is not among the sources.  The kinds are
    those of the error-handling design (ArgumentError, LookUpError,
    ActionError, AuthorizationError, ParseError) and the index-out-of-range
    condition that ends an enumeration; the classes the sources import keep
    their names.  The remaining constructors are Python's built-in
    exceptions that the modelled code can raise itself. *)

Inductive exn : Type :=
| FritzActionError (msg : string)
| FritzArgumentError (msg : string)
| FritzLookUpError (msg : string)
| FritzAuthorizationError (msg : string)
| IndexOutOfRange (msg : string)
| ParseError (msg : string)
| IndexError
| KeyError (key : string)
| AttributeError
| TypeError
| ValueError
| UnboundLocalError (name : string)
| OtherError (name : string).

#[global] Instance exn_eq_dec : EqDecision exn.
Proof. solve_decision. Defined.

(** [except IndexError]: the built-in class and the index-out-of-range
    condition of the action invoker, which is an [IndexError]. *)
Definition is_IndexError (e : exn) : bool :=
  match e with
  | IndexError | IndexOutOfRange _ => true
  | _ => false
  end.

(** [except (FritzArgumentError, FritzLookUpError)]. *)
Definition is_ArgumentError_or_LookUpError (e : exn) : bool :=
  match e with
  | FritzArgumentError _ | FritzLookUpError _ => true
  | _ => false
  end.

(** ** Outcomes

    What a collaborator answers: a value or an exception. *)
Inductive reply (A : Type) : Type :=
| Reply (a : A)
| Fault (e : exn).
Arguments Reply {A} a.
Arguments Fault {A} e.

(** What a modelled function does: it returns, it raises, or the bound on
    the number of loop iterations given to the model was reached before the
    loop ended. *)
Inductive result (A : Type) : Type :=
| Ok (a : A)
| Raise (e : exn)
| OutOfFuel.
Arguments Ok {A} a.
Arguments Raise {A} e.
Arguments OutOfFuel {A}.

#[global] Instance result_ret : MRet result := @Ok.
#[global] Instance result_bind : MBind result := λ A B f r,
  match r with
  | Ok a => f a
  | Raise e => Raise e
  | OutOfFuel => OutOfFuel
  end.
#[global] Instance result_fmap : FMap result := λ A B f r,
  match r with
  | Ok a => Ok (f a)
  | Raise e => Raise e
  | OutOfFuel => OutOfFuel
  end.

Definition of_reply {A} (r : reply A) : result A :=
  match r with
  | Reply a => Ok a
  | Fault e => Raise e
  end.

(** [d[key]]. *)
Definition getitem (d : dict) (key : string) : result pyval :=
  match d !! key with
  | Some v => Ok v
  | None => Raise (KeyError key)
  end.

(** ** Calls on the collaborators, and the monad that records them *)

Inductive event : Type :=
| EvAction (service actionname : string) (arguments : option kwargs) (kw : kwargs)
| EvGet (url : string).

#[global] Instance event_eq_dec : EqDecision event.
Proof. solve_decision. Defined.

Abbreviation trace := (list event).

(** A computation reads the trace of the calls made so far and returns its
    outcome with the extended trace.  The trace survives an exception. *)
Definition M (A : Type) : Type := trace → result A * trace.

#[global] Instance M_ret : MRet M := λ A a t, (Ok a, t).
#[global] Instance M_bind : MBind M := λ A B f m t,
  match m t with
  | (Ok a, t') => f a t'
  | (Raise e, t') => (Raise e, t')
  | (OutOfFuel, t') => (OutOfFuel, t')
  end.

Definition lift {A} (r : result A) : M A := λ t, (r, t).
Definition raise {A} (e : exn) : M A := lift (Raise e).
Definition out_of_fuel {A} : M A := lift OutOfFuel.
Definition emit (ev : event) : M () := λ t, (Ok (), t ++ [ev]).

(** [try: body  except <handles>: handler]. *)
Definition try_except {A} (body : M A) (handles : exn → bool)
    (handler : exn → M A) : M A := λ t,
  match body t with
  | (Raise e, t') => if handles e then handler e t' else (Raise e, t')
  | r => r
  end.

(** Runs a computation from the empty trace. *)
Definition run {A} (m : M A) : result A * trace := m [].

#[global] Instance M_fmap : FMap M := λ A B f m, a ← m; mret (f a).

(** ** The collaborators

    The modelled code consumes a connection object [fc] (class
    [FritzConnection], not among the sources): its [call_action], the
    remote action invoker, and its [session], an HTTP session.  An answer
    depends on the request only: the router's host table does not change
    while one of the modelled functions runs. *)

Inductive json : Type :=
| JNull
| JBool (b : bool)
| JNumber (z : Z)
| JString (s : string)
| JArray (items : list json)
| JObject (members : list (string * json)).

(** The response of [session.get]: the attributes [get_mesh_topology]
    reads; [json] is what the method [response.json()] does. *)
Module Response.
Record t : Type := mk {
  ok : bool;
  status_code : Z;
  text : string;
  json : reply json;
}.
End Response.

Record FritzConnection : Type := {
  address : string;
  port : Z;
  call_action : string → string → option kwargs → kwargs → reply dict;
  session_get : string → reply Response.t;
}.

(** ** [lib/fritzhosts.py] *)

Module fritzhosts.

Definition SERVICE : string := "Hosts1".

(** A generator object made by [get_generic_host_entries]: suspended
    before the iteration with the given index, or finished. *)
Inductive generator : Type :=
| GenSuspended (index : nat)
| GenFinished.

(** What [get_mesh_topology] returns: [dict | str]. *)
Inductive topology : Type :=
| TopologyText (body : string)
| TopologyJson (body : json).

Section FritzHosts.
Variable fc : FritzConnection.

Definition _action (actionname : string) (arguments : option kwargs)
    (kw : kwargs) : M dict :=
  emit (EvAction SERVICE actionname arguments kw);;
  lift (of_reply (call_action fc SERVICE actionname arguments kw)).

Definition host_numbers : M pyval :=
  result ← _action "GetHostNumberOfEntries" None [];
  lift (getitem result "NewHostNumberOfEntries").

Definition get_generic_host_entry (index : nat) : M dict :=
  _action "GetGenericHostEntry" None [("NewIndex", VInt (Z.of_nat index))].

(** Calling the generator function runs nothing: it makes a generator
    suspended before [index = 0]. *)
Definition get_generic_host_entries : generator := GenSuspended 0.

(** [next(g)]: one iteration of
    [for index in itertools.count(): try: yield ... except IndexError: break].
    [None] is [StopIteration]. *)
Definition next (g : generator) : M (option dict * generator) :=
  match g with
  | GenFinished => mret (None, GenFinished)
  | GenSuspended index =>
      try_except
        (host ← get_generic_host_entry index;
         mret (Some host, GenSuspended (S index)))
        is_IndexError
        (λ _, mret (None, GenFinished))
  end.

Definition get_specific_host_entry (mac_address : pyval) : M dict :=
  _action "GetSpecificHostEntry" None [("NewMACAddress", mac_address)].

Definition get_specific_host_entry_by_ip (ip : pyval) : M dict :=
  _action "X_AVM-DE_GetSpecificHostEntryByIP" None [("NewIPAddress", ip)].

Definition get_host_status (mac_address : pyval) : M pyval :=
  r ← try_except
        (Some <$> get_specific_host_entry mac_address)
        is_ArgumentError_or_LookUpError
        (λ _, mret None);
  match r with
  | None => mret VNone
  | Some result => lift (getitem result "NewActive")
  end.

(** The dict literal that [get_hosts_info] appends for [host]; its values
    are evaluated in the order they are written. *)
Definition host_info (host : dict) : result dict :=
  ip ← getitem host "NewIPAddress";
  name ← getitem host "NewHostName";
  mac ← getitem host "NewMACAddress";
  status ← getitem host "NewActive";
  interface_type ← getitem host "NewInterfaceType";
  address_source ← getitem host "NewAddressSource";
  lease_time_remaining ← getitem host "NewLeaseTimeRemaining";
  mret ({[ "ip" := ip;
           "name" := name;
           "mac" := mac;
           "status" := status;
           "interface_type" := interface_type;
           "address_source" := address_source;
           "lease_time_remaining" := lease_time_remaining ]} : dict).

(** The loop of [get_hosts_info], entered with [index] and with the
    list [result] built so far. *)
Fixpoint get_hosts_info_loop (fuel index : nat) (result : list dict)
    : M (list dict) :=
  match fuel with
  | O => out_of_fuel
  | S fuel' =>
      r ← try_except
            (Some <$> get_generic_host_entry index)
            is_IndexError
            (λ _, mret None);
      match r with
      | None => mret result
      | Some host =>
          record ← lift (host_info host);
          get_hosts_info_loop fuel' (S index) (result ++ [record])
      end
  end.

Definition get_hosts_info (fuel : nat) : M (list dict) :=
  get_hosts_info_loop fuel 0 [].

(** [[host for host in hosts if host["status"]]]. *)
Fixpoint active_of (hosts : list dict) : result (list dict) :=
  match hosts with
  | [] => Ok []
  | host :: hosts' =>
      status ← getitem host "status";
      rest ← active_of hosts';
      mret (if truthy status then host :: rest else rest)
  end.

Definition get_active_hosts (fuel : nat) : M (list dict) :=
  hosts ← get_hosts_info fuel;
  lift (active_of hosts).

Definition session_get_ (url : string) : M Response.t :=
  emit (EvGet url);;
  lift (of_reply (session_get fc url)).

Definition get_mesh_topology (raw : bool) : M topology :=
  result ← _action "X_AVM-DE_GetMeshListPath" None [];
  path ← lift (getitem result "NewX_AVM-DE_MeshListPath");
  let url := address fc +:+ ":" +:+ pretty (port fc) +:+ py_str path in
  response ← session_get_ url;
  if negb (Response.ok response) then
    let message := "Error " +:+ pretty (Response.status_code response)
                   +:+ ": Device has no access to topology information." in
    raise (FritzActionError message)
  else if raw then mret (TopologyText (Response.text response))
  else TopologyJson <$> lift (of_reply (Response.json response)).

Definition wakeonlan_host (mac_address : pyval) : M () :=
  _action "X_AVM-DE_WakeOnLANByMACAddress" None [("NewMACAddress", mac_address)];;
  mret ().

(** [list(g)]. *)
Fixpoint list_of (fuel : nat) (g : generator) : M (list dict) :=
  match fuel with
  | O => out_of_fuel
  | S fuel' =>
      '(item, g') ← next g;
      match item with
      | None => mret []
      | Some host => rest ← list_of fuel' g'; mret (host :: rest)
      end
  end.

(** [for x in g: body  else: ...]: the body answers [Some b] to
    [break] with [b] and [None] to go on; the loop answers [None]
    when the generator is exhausted (the [else] branch runs). *)
Fixpoint for_in {B} (fuel : nat) (g : generator)
    (body : dict → M (option B)) : M (option B) :=
  match fuel with
  | O => out_of_fuel
  | S fuel' =>
      '(item, g') ← next g;
      match item with
      | None => mret None
      | Some x =>
          r ← body x;
          match r with
          | Some b => mret (Some b)
          | None => for_in fuel' g' body
          end
      end
  end.

End FritzHosts.
End fritzhosts.

(** ** [cli/fritzwol.py] *)

Module fritzwol.

(** The parsed command line: the three options of [add_arguments], each
    [None] by default. *)
Record Namespace : Type := {
  device_mac_address : option string;
  device_ip_address : option string;
  device_name : option string;
}.

(** [if a:] for an option of the command line: [None] and the empty string
    are false.  Answers the string when the test is true. *)
Definition given (a : option string) : option string :=
  match a with
  | Some s => if String.eqb s "" then None else Some s
  | None => None
  end.

Section Lower.
(** The builtin [str.lower]. *)
Variable str_lower : string → string.

(** [v.lower()]: only a [str] has the method. *)
Definition py_lower (v : pyval) : result string :=
  match v with
  | VStr s => Ok (str_lower s)
  | _ => Raise AttributeError
  end.

(** The body of the loop over the host entries: [Some mac] is the [break]. *)
Definition match_entry (device_name : string) (entry : dict)
    : M (option pyval) :=
  name ← lift (getitem entry "NewHostName");
  name ← lift (py_lower name);
  if String.eqb name device_name then
    mac ← lift (getitem entry "NewMACAddress");
    mret (Some mac)
  else mret None.

(** The three branches that bind the local variable [mac]; [None] when no
    branch is taken and [mac] stays unbound. *)
Definition resolve (fuel : nat) (fh : FritzConnection) (args : Namespace)
    : M (option pyval) :=
  match given (device_mac_address args) with
  | Some mac => mret (Some (VStr mac))
  | None =>
      match given (device_ip_address args) with
      | Some ip =>
          host ← try_except
                   (fritzhosts.get_specific_host_entry_by_ip fh (VStr ip))
                   is_ArgumentError_or_LookUpError
                   (λ _, let msg := "Error: unknown IP " +:+ ip in
                         raise (FritzArgumentError msg));
          mac ← lift (getitem host "NewMACAddress");
          mret (Some mac)
      | None =>
          match given (device_name args) with
          | Some name =>
              let device_name := str_lower name in
              r ← fritzhosts.for_in fh fuel
                    (fritzhosts.get_generic_host_entries)
                    (match_entry device_name);
              match r with
              | Some mac => mret (Some mac)
              | None =>
                  let msg := "Error: unknown device name '" +:+ name +:+ "'" in
                  raise (FritzArgumentError msg)
              end
          | None => mret None
          end
      end
  end.

(** [wake_host(fh, args)]; what it prints is not modelled. *)
Definition wake_host (fuel : nat) (fh : FritzConnection) (args : Namespace)
    : M () :=
  mac ← resolve fuel fh args;
  match mac with
  | Some mac => fritzhosts.wakeonlan_host fh mac
  | None => raise (UnboundLocalError "mac")
  end.

End Lower.

(** [except FritzAuthorizationError] and [except FritzArgumentError]. *)
Definition is_FritzAuthorizationError (e : exn) : bool :=
  match e with FritzAuthorizationError _ => true | _ => false end.

Definition is_FritzArgumentError (e : exn) : bool :=
  match e with FritzArgumentError _ => true | _ => false end.

Section Main.
(** The builtin [str.lower]. *)
Variable str_lower : string → string.
(** The helpers of [cli/utils.py], which is not among the sources: the
    command line parser, the constructor of the [FritzHosts] instance, and
    the two printing helpers. *)
Variable get_cli_arguments : M Namespace.
Variable get_instance : Namespace → M FritzConnection.
Variable print_header : FritzConnection → M ().
Variable print_common_exception_message : exn → M ().

Definition execute (fuel : nat) : M () :=
  arguments ← get_cli_arguments;
  fh ← get_instance arguments;
  print_header fh;;
  wake_host str_lower fuel fh arguments.

(** [main()]: the two [except] clauses, in their order; [print(err)] is not
    modelled. *)
Definition main (fuel : nat) : M () :=
  try_except (execute fuel)
    (λ e, is_FritzAuthorizationError e || is_FritzArgumentError e)
    (λ err, if is_FritzAuthorizationError err
            then print_common_exception_message err
            else mret ()).

End Main.

End fritzwol.

(** ** Terminal output

    A computation that also prints: the lines printed so far are threaded
    beside the trace, and survive an exception.  One entry per call of
    [print], without the final newline that [print] adds. *)

Definition IO (A : Type) : Type :=
  list string → trace → result A * trace * list string.

#[global] Instance IO_ret : MRet IO := λ A a out t, (Ok a, t, out).
#[global] Instance IO_bind : MBind IO := λ A B f m out t,
  match m out t with
  | (Ok a, t', out') => f a out' t'
  | (Raise e, t', out') => (Raise e, t', out')
  | (OutOfFuel, t', out') => (OutOfFuel, t', out')
  end.

(** A computation that prints nothing. *)
Definition io {A} (m : M A) : IO A := λ out t, (m t, out).

Definition print (line : string) : IO () := λ out t, (Ok (), t, out ++ [line]).

(** The newline character. *)
Definition nl : string := String (ascii_of_nat 10) "".

(** The format field [{:<width}] for a string: spaces are added on the
    right up to [width] characters. *)
Definition ljust (width : nat) (s : string) : string :=
  s +:+ string_of_list_ascii (replicate (width - String.length s) " "%char).

(** ** [xml.etree.ElementTree], as far as the parser uses it *)

Module ET.

Inductive Element : Type :=
| mkElement (tag : string) (text : option string) (children : list Element).

Definition tag (e : Element) : string :=
  match e with mkElement t _ _ => t end.

(** [e.text]: [None] for an element without text. *)
Definition text (e : Element) : option string :=
  match e with mkElement _ t _ => t end.

Definition children (e : Element) : list Element :=
  match e with mkElement _ _ c => c end.

(** [e.findall(name)] for a plain tag name: the direct children with that
    tag, in document order. *)
Definition findall (e : Element) (name : string) : list Element :=
  filter (λ c, tag c = name) (children e).

(** [e.find(name)]: the first such child, or [None]. *)
Definition find (e : Element) (name : string) : option Element :=
  head (findall e name).

End ET.

(** ** [fritzcallforwarding.py] *)

Module fritzcallforwarding.

Definition SERVICE : string := "X_AVM-DE_OnTel".

(** [e.text] where [e] is what [find] answered: [None] has no attribute
    [text]. *)
Definition text_of (e : option ET.Element) : result (option string) :=
  match e with
  | Some x => Ok (ET.text x)
  | None => Raise AttributeError
  end.

(** The text of an element as a Python value. *)
Definition of_text (t : option string) : pyval :=
  match t with
  | Some s => VStr s
  | None => VNone
  end.

Section Parser.
(** The builtin [int] on a [str]: [None] when it raises a ValueError. *)
Variable int_of_str : string → option Z.

(** [int(t)] for the text of an element: [None] is a TypeError. *)
Definition py_int (t : option string) : result Z :=
  match t with
  | None => Raise TypeError
  | Some s =>
      match int_of_str s with
      | Some z => Ok z
      | None => Raise ValueError
      end
  end.

(** [int(v)] for a value of an action's answer. *)
Definition py_int_of_val (v : pyval) : result Z :=
  match v with
  | VInt z => Ok z
  | VBool b => Ok (if b then 1 else 0)%Z
  | VStr s => py_int (Some s)
  | VNone => Raise TypeError
  end.

(** One iteration of the loop: the dict appended for [element], or [None]
    when nothing is appended. *)
Definition parse_item (filter_blocked : bool) (element : ET.Element)
    : result (option dict) :=
  uid ← text_of (ET.find element "DeflectionId");
  enabled ← text_of (ET.find element "Enable") ≫= py_int;
  connection_type ← text_of (ET.find element "Type");
  from_number ← text_of (ET.find element "Number");
  to_number ← text_of (ET.find element "DeflectionToNumber");
  let record : dict :=
    {[ "uid" := of_text uid;
       "from_number" := of_text from_number;
       "to_number" := of_text to_number;
       "connection_type" := of_text connection_type;
       "enabled" := VInt enabled ]} in
  if filter_blocked then
    match to_number with
    | Some _ => mret (Some record)
    | None => mret None
    end
  else mret (Some record).

(** The loop over the items, entered with the list built so far. *)
Fixpoint parse_items (filter_blocked : bool) (elements : list ET.Element)
    (call_forwardings : list dict) : result (list dict) :=
  match elements with
  | [] => Ok call_forwardings
  | element :: elements' =>
      r ← parse_item filter_blocked element;
      parse_items filter_blocked elements'
        (match r with
         | Some record => call_forwardings ++ [record]
         | None => call_forwardings
         end)
  end.

(** [ET.fromstring], the XML parser: it answers the root element or raises
    a [ParseError]. *)
Variable fromstring : string → reply ET.Element.

Definition parse_call_forwarding_list (call_forwarding_list : string)
    (filter_blocked : bool) : result (list dict) :=
  element_tree ← of_reply (fromstring call_forwarding_list);
  parse_items filter_blocked (ET.findall element_tree "Item") [].

End Parser.

(** An instance of the class [FritzCallforwarding]. *)
Record FritzCallforwarding : Type := {
  fritz_connection : FritzConnection;
  service : Z;
}.

(** [FritzCallforwarding(fritz_connection)]. *)
Definition init (fritz_connection : FritzConnection) : FritzCallforwarding :=
  {| fritz_connection := fritz_connection; service := 1 |}.

(** The argument [detail] of [_print_detail]: the list that the option
    [--detail] makes, or the string that [_print_switch] passes. *)
Inductive detail_arg : Type :=
| DetailList (items : list string)
| DetailString (s : string).

(** The bytes that continue a character of a UTF-8 text: the leading
    bytes of [s] of the form [10xxxxxx]. *)
Fixpoint continuation (s : string) : string :=
  match s with
  | String c s' =>
      let n := nat_of_ascii c in
      if ((128 <=? n) && (n <? 192))%nat then String c (continuation s')
      else ""
  | EmptyString => ""
  end.

(** [detail[0]]: the first element of a list, the first character of a
    string. *)
Definition first_of (detail : detail_arg) : result string :=
  match detail with
  | DetailList (item :: _) => Ok item
  | DetailString (String c s) => Ok (String c (continuation s))
  | _ => Raise IndexError
  end.

(** [l[i]] for a list of strings. *)
Definition list_item (l : list string) (i : nat) : result string :=
  match l !! i with
  | Some x => Ok x
  | None => Raise IndexError
  end.

(** The keys of the dict of [get_call_forwarding_by_uid], in the order of
    the dict literal, which is the order [info.items()] follows. *)
Definition info_keys : list string :=
  ["uid"; "from_number"; "to_number"; "connection_type"; "enabled"].

Section Class.
(** The builtins [int] and [str.lower]. *)
Variable int_of_str : string → option Z.
Variable str_lower : string → string.
Variable fromstring : string → reply ET.Element.
Variable self : FritzCallforwarding.
(** What [str.format] makes of the bound method
    [call_forwarding.get_no_call_forwardings], which [_print_detail] prints
    without calling it. *)
Variable bound_method_repr : string.

Definition service_name : string := SERVICE +:+ ":" +:+ pretty (service self).

Definition action (actionname : string) (kw : kwargs) : M dict :=
  emit (EvAction service_name actionname None kw);;
  lift (of_reply (call_action (fritz_connection self) service_name
                    actionname None kw)).

Definition get_no_call_forwardings : M pyval :=
  result ← action "GetNumberOfDeflections" [];
  lift (getitem result "NewNumberOfDeflections").

(** [ET.fromstring] is given the value of the answer: a value that is not
    a [str] is a TypeError. *)
Definition get_call_forwarding_list (filter_blocked : bool) : M (list dict) :=
  result ← action "GetDeflections" [];
  raw_deflection_list ← lift (getitem result "NewDeflectionList");
  match raw_deflection_list with
  | VStr blob =>
      lift (parse_call_forwarding_list int_of_str fromstring blob
              filter_blocked)
  | _ => raise TypeError
  end.

Definition get_call_forwarding_by_uid (uid : pyval) : M dict :=
  deflection_dict ← action "GetDeflection" [("NewDeflectionId", uid)];
  from_number ← lift (getitem deflection_dict "NewNumber");
  to_number ← lift (getitem deflection_dict "NewDeflectionToNumber");
  connection_type ← lift (getitem deflection_dict "NewType");
  enabled ← lift (getitem deflection_dict "NewEnable"
                  ≫= py_int_of_val int_of_str);
  mret ({[ "uid" := uid;
           "from_number" := from_number;
           "to_number" := to_number;
           "connection_type" := connection_type;
           "enabled" := VInt enabled ]} : dict).

Definition get_call_forwarding_status_by_uid (uid : pyval) : M pyval :=
  info ← get_call_forwarding_by_uid uid;
  lift (getitem info "enabled").

Definition set_call_forwarding (uid enable : pyval) : M pyval :=
  action "SetDeflectionEnable" [("NewDeflectionId", uid); ("NewEnable", enable)];;
  get_call_forwarding_status_by_uid uid.

(** [for key, value in info.items(): print(...)]. *)
Fixpoint print_items (info : dict) (keys : list string) : IO () :=
  match keys with
  | [] => mret ()
  | key :: keys' =>
      match info !! key with
      | Some value => print (ljust 30 key +:+ ": " +:+ py_str value)
      | None => mret ()
      end;;
      print_items info keys'
  end.

Definition _print_detail (detail : detail_arg) (quiet : bool) : IO () :=
  uid ← io (lift (str_lower <$> first_of detail));
  info ← io (get_call_forwarding_by_uid (VStr uid));
  if bool_decide (info ≠ ∅) then
    if negb quiet then
      print (nl +:+ ljust 30 "Details for index:" +:+ uid);;
      print (ljust 30 "" +:+ service_name +:+ bound_method_repr +:+ nl);;
      print_items info info_keys
    else
      enabled ← io (lift (getitem info "enabled"));
      print (py_str enabled)
  else
    if quiet then print "0" else mret ().

Definition _print_switch (switch : list string) (quiet : bool) : IO () :=
  uid ← io (lift (str_lower <$> list_item switch 0));
  state ← io (lift (str_lower <$> list_item switch 1));
  (if bool_decide (state ∈ ["on"; "enable"; "enabled"; "active"])
   then io (set_call_forwarding (VStr uid) (VInt 1))
   else io (set_call_forwarding (VStr uid) (VInt 0)));;
  _print_detail (DetailString uid) quiet.

Definition _print_nums : IO () :=
  number ← io get_no_call_forwardings;
  print (service_name +:+ ": " +:+ py_str number).

End Class.
End fritzcallforwarding.

(** ** A simulated router

    A test double for the collaborators, in the manner of the mocks of
    [tests/cli/test_fritzwol.py]: it answers the host actions from a host
    table and the follow-up GET with a fixed response.  It is used for the
    examples only; every property below is stated for an arbitrary
    connection. *)

Module mock.

Definition host_entry (ip name mac : string) (active : bool) (lease : Z)
    : dict :=
  {[ "NewIPAddress" := VStr ip;
     "NewHostName" := VStr name;
     "NewMACAddress" := VStr mac;
     "NewActive" := VBool active;
     "NewInterfaceType" := VStr "Ethernet";
     "NewAddressSource" := VStr "DHCP";
     "NewLeaseTimeRemaining" := VInt lease ]}.

Definition lookup_by (key : string) (v : pyval) (table : list dict)
    : reply dict :=
  match head (filter (λ h : dict, h !! key = Some v) table) with
  | Some h => Reply h
  | None => Fault (FritzLookUpError "714")
  end.

Definition answer (table : list dict) (service actionname : string)
    (arguments : option kwargs) (kw : kwargs) : reply dict :=
  if negb (String.eqb service "Hosts1") then
    Fault (OtherError "FritzServiceError")
  else if String.eqb actionname "GetGenericHostEntry" then
    match kw with
    | [(_, VInt i)] =>
        match table !! Z.to_nat i with
        | Some h => Reply h
        | None => Fault (IndexOutOfRange "713")
        end
    | _ => Fault (FritzArgumentError "402")
    end
  else if String.eqb actionname "GetSpecificHostEntry" then
    match kw with
    | [(_, mac)] => lookup_by "NewMACAddress" mac table
    | _ => Fault (FritzArgumentError "402")
    end
  else if String.eqb actionname "X_AVM-DE_GetSpecificHostEntryByIP" then
    match kw with
    | [(_, ip)] => lookup_by "NewIPAddress" ip table
    | _ => Fault (FritzArgumentError "402")
    end
  else if String.eqb actionname "X_AVM-DE_WakeOnLANByMACAddress" then
    Reply ∅
  else if String.eqb actionname "X_AVM-DE_GetMeshListPath" then
    Reply {[ "NewX_AVM-DE_MeshListPath" := VStr "/meshlist.lua?sid=0" ]}
  else Fault (OtherError "FritzActionError").

Definition router (table : list dict) (mesh : Response.t) : FritzConnection :=
  {| address := "http://169.254.1.1";
     port := 49000%Z;
     call_action := answer table;
     session_get := λ _, Reply mesh |}.

Definition no_mesh : Response.t :=
  Response.mk false 404%Z "" (Fault ValueError).

Definition mesh_body : Response.t :=
  Response.mk true 200%Z "{}" (Reply (JObject [])).

(** The two hosts of [test_name_calls_generic_host_entries_then_wakeonlan]. *)
Definition two_hosts : list dict :=
  [ host_entry "192.168.178.20" "otherhost" "11:22:33:44:55:66" true 0%Z;
    host_entry "127.0.0.1" "thishost" "C0:FF:EE:C0:FF:EE" false 3600%Z ].

Definition fh : FritzConnection := router two_hosts no_mesh.

(** A router that answers the two hosts and then rejects the session. *)
Definition broken_fh : FritzConnection :=
  {| address := "http://169.254.1.1";
     port := 49000%Z;
     call_action := λ service actionname arguments kw,
       match answer two_hosts service actionname arguments kw with
       | Fault (IndexOutOfRange _) => Fault (FritzAuthorizationError "401")
       | r => r
       end;
     session_get := λ _, Reply no_mesh |}.

(** One host whose raw dict has no MAC address. *)
Definition macless_hosts : list dict :=
  [ delete "NewMACAddress"
      (host_entry "127.0.0.1" "thishost" "C0:FF:EE:C0:FF:EE" false 3600%Z) ].

(** Three hosts; the second raw dict has no host name. *)
Definition nameless_hosts : list dict :=
  [ host_entry "192.168.178.20" "otherhost" "11:22:33:44:55:66" true 0%Z;
    delete "NewHostName"
      (host_entry "127.0.0.1" "thishost" "C0:FF:EE:C0:FF:EE" false 3600%Z);
    host_entry "192.168.178.22" "thishost" "AA:BB:CC:DD:EE:FF" true 0%Z ].

Definition record_of (ip name mac : string) (active : bool) (lease : Z)
    : dict :=
  {[ "ip" := VStr ip;
     "name" := VStr name;
     "mac" := VStr mac;
     "status" := VBool active;
     "interface_type" := VStr "Ethernet";
     "address_source" := VStr "DHCP";
     "lease_time_remaining" := VInt lease ]}.

Definition two_records : list dict :=
  [ record_of "192.168.178.20" "otherhost" "11:22:33:44:55:66" true 0%Z;
    record_of "127.0.0.1" "thishost" "C0:FF:EE:C0:FF:EE" false 3600%Z ].

(** Three deflections; the second one has no destination number. *)
Definition item (uid enable type number : string) (to : option string)
    : ET.Element :=
  ET.mkElement "Item" None
    [ ET.mkElement "DeflectionId" (Some uid) [];
      ET.mkElement "Enable" (Some enable) [];
      ET.mkElement "Type" (Some type) [];
      ET.mkElement "Number" (Some number) [];
      ET.mkElement "DeflectionToNumber" to [] ].

Definition three_items : ET.Element :=
  ET.mkElement "List" None
    [ item "0" "1" "fromNumber" "0301234567" (Some "0307654321");
      item "1" "0" "fromNumber" "0301111111" None;
      item "2" "1" "fromAll" "0302222222" (Some "0309999999") ].

(** Two deflections; the second one has no [Enable] child. *)
Definition broken_items : ET.Element :=
  ET.mkElement "List" None
    [ item "0" "1" "fromNumber" "0301234567" (Some "0307654321");
      ET.mkElement "Item" None
        [ ET.mkElement "DeflectionId" (Some "1") [];
          ET.mkElement "Type" (Some "fromNumber") [];
          ET.mkElement "Number" (Some "0301111111") [];
          ET.mkElement "DeflectionToNumber" (Some "0307654321") [] ] ].

(** Three deflections with all five children; the second one is a blocked
    number and the [Enable] of the third one has no text. *)
Definition enable_without_text : ET.Element :=
  ET.mkElement "List" None
    [ item "0" "1" "fromNumber" "0301234567" (Some "0307654321");
      item "1" "0" "fromNumber" "0301111111" None;
      ET.mkElement "Item" None
        [ ET.mkElement "DeflectionId" (Some "2") [];
          ET.mkElement "Enable" None [];
          ET.mkElement "Type" (Some "fromAll") [];
          ET.mkElement "Number" (Some "0302222222") [];
          ET.mkElement "DeflectionToNumber" (Some "0309999999") [] ] ].

(** One deflection whose [Enable] text is [2]. *)
Definition enable_two : ET.Element :=
  ET.mkElement "List" None
    [ item "0" "2" "fromNumber" "0301234567" (Some "0307654321") ].

(** An XML parser that knows four documents by name. *)
Definition fromstring (blob : string) : reply ET.Element :=
  if String.eqb blob "three_items" then Reply three_items
  else if String.eqb blob "broken_items" then Reply broken_items
  else if String.eqb blob "enable_without_text" then Reply enable_without_text
  else if String.eqb blob "enable_two" then Reply enable_two
  else Fault (ParseError "syntax error").

(** The document [enable_two] with one more child of the root, which is
    not an [Item]. *)
Definition with_comment : ET.Element :=
  ET.mkElement "List" None
    [ ET.mkElement "Comment" (Some "Item") [];
      item "0" "2" "fromNumber" "0301234567" (Some "0307654321") ].

(** The deflection [12] of the router below, as the only item of a
    document. *)
Definition one_item : ET.Element :=
  ET.mkElement "List" None
    [ item "12" "1" "fromAll" "0301234567" (Some "0309999999") ].

(** The parser above, which knows these documents as well. *)
Definition fromstring_more (blob : string) : reply ET.Element :=
  if String.eqb blob "with_comment" then Reply with_comment
  else if String.eqb blob "one_item" then Reply one_item
  else fromstring blob.

(** A router with the deflections [1] (off) and [12] (on). *)
Definition deflection (number to type : string) (enable : Z) : dict :=
  {[ "NewNumber" := VStr number;
     "NewDeflectionToNumber" := VStr to;
     "NewType" := VStr type;
     "NewEnable" := VInt enable ]}.

Definition ontel_answer (service actionname : string)
    (arguments : option kwargs) (kw : kwargs) : reply dict :=
  if negb (String.eqb service "X_AVM-DE_OnTel:1") then
    Fault (OtherError "FritzServiceError")
  else if String.eqb actionname "GetDeflections" then
    Reply {[ "NewDeflectionList" := VStr "three_items" ]}
  else if String.eqb actionname "GetNumberOfDeflections" then
    Reply {[ "NewNumberOfDeflections" := VInt 2 ]}
  else if String.eqb actionname "SetDeflectionEnable" then
    Reply ∅
  else if String.eqb actionname "GetDeflection" then
    match kw with
    | [(_, VStr uid)] =>
        if String.eqb uid "1" then
          Reply (deflection "0301111111" "0307654321" "fromNumber" 0)
        else if String.eqb uid "12" then
          Reply (deflection "0301234567" "0309999999" "fromAll" 1)
        else Fault (FritzArgumentError "713")
    | _ => Fault (FritzArgumentError "402")
    end
  else Fault (OtherError "FritzActionError").

Definition ontel_fc : FritzConnection :=
  {| address := "http://169.254.1.1";
     port := 49000%Z;
     call_action := ontel_answer;
     session_get := λ _, Fault (OtherError "ConnectionError") |}.

End mock.

(** ** Vocabulary of the properties *)

(** The call that fetches the host at [index], and the router's answer. *)
Definition generic_call (index : nat) : event :=
  EvAction fritzhosts.SERVICE "GetGenericHostEntry" None
    [("NewIndex", VInt (Z.of_nat index))].

Definition generic_reply (fc : FritzConnection) (index : nat) : reply dict :=
  call_action fc fritzhosts.SERVICE "GetGenericHostEntry" None
    [("NewIndex", VInt (Z.of_nat index))].

(** The calls for the indices [from], ..., [from + count - 1]. *)
Definition generic_calls (from count : nat) : trace :=
  generic_call <$> seq from count.

(** The router knows exactly the hosts of [hosts]: the lookup succeeds at
    every position of the list and signals an [IndexError] at its length. *)
Definition reports_hosts (fc : FritzConnection) (hosts : list dict) : Prop :=
  (∀ i host, hosts !! i = Some host → generic_reply fc i = Reply host) ∧
  (∃ e, generic_reply fc (length hosts) = Fault e ∧ is_IndexError e = true).

(** The wake trigger for [mac]. *)
Definition wake_call (mac : pyval) : event :=
  EvAction fritzhosts.SERVICE "X_AVM-DE_WakeOnLANByMACAddress" None
    [("NewMACAddress", mac)].

Definition is_wake_call (ev : event) : bool :=
  match ev with
  | EvAction _ actionname _ _ =>
      String.eqb actionname "X_AVM-DE_WakeOnLANByMACAddress"
  | EvGet _ => false
  end.

(** The lookup by MAC address, and the router's answer. *)
Definition specific_call (mac : pyval) : event :=
  EvAction fritzhosts.SERVICE "GetSpecificHostEntry" None
    [("NewMACAddress", mac)].

Definition specific_reply (fc : FritzConnection) (mac : pyval) : reply dict :=
  call_action fc fritzhosts.SERVICE "GetSpecificHostEntry" None
    [("NewMACAddress", mac)].

(** The lookup by IP address, and the router's answer. *)
Definition by_ip_call (ip : pyval) : event :=
  EvAction fritzhosts.SERVICE "X_AVM-DE_GetSpecificHostEntryByIP" None
    [("NewIPAddress", ip)].

Definition by_ip_reply (fc : FritzConnection) (ip : pyval) : reply dict :=
  call_action fc fritzhosts.SERVICE "X_AVM-DE_GetSpecificHostEntryByIP" None
    [("NewIPAddress", ip)].

(** The router's answer to the wake trigger. *)
Definition wake_reply (fc : FritzConnection) (mac : pyval) : reply dict :=
  call_action fc fritzhosts.SERVICE "X_AVM-DE_WakeOnLANByMACAddress" None
    [("NewMACAddress", mac)].

(** The canonical field names of a host record, each with the vendor's name
    of the field it is taken from. *)
Definition field_names : list (string * string) :=
  [ ("ip", "NewIPAddress");
    ("name", "NewHostName");
    ("mac", "NewMACAddress");
    ("status", "NewActive");
    ("interface_type", "NewInterfaceType");
    ("address_source", "NewAddressSource");
    ("lease_time_remaining", "NewLeaseTimeRemaining") ].

Definition canonical_keys : gset string :=
  {[ "ip"; "name"; "mac"; "status"; "interface_type"; "address_source";
     "lease_time_remaining" ]}.

(** The raw dict [host] carries the seven vendor-named fields. *)
Definition has_vendor_fields (host : dict) : Prop :=
  Forall (λ cv : string * string, is_Some (host !! cv.2)) field_names.

(** [record] is the host record of the raw dict [host]: its keys are the
    seven canonical ones, no more and no fewer, and each holds the value of
    the corresponding vendor-named field of [host]. *)
Definition host_record (host record : dict) : Prop :=
  dom record = canonical_keys ∧
  Forall (λ cv : string * string,
            is_Some (host !! cv.2) ∧ record !! cv.1 = host !! cv.2)
         field_names.

(** The status of a record is [True], is truthy, is a [bool]. *)
Definition status_true (record : dict) : Prop :=
  record !! "status" = Some (VBool true).

Definition status_truthy (record : dict) : Prop :=
  truthy <$> record !! "status" = Some true.

Definition status_is_bool (record : dict) : Prop :=
  is_bool <$> record !! "status" = Some true.

#[global] Instance status_true_dec (record : dict) : Decision (status_true record).
Proof. unfold status_true. apply _. Defined.

#[global] Instance status_truthy_dec (record : dict) : Decision (status_truthy record).
Proof. unfold status_truthy. apply _. Defined.

#[global] Instance status_is_bool_dec (record : dict) : Decision (status_is_bool record).
Proof. unfold status_is_bool. apply _. Defined.

(** What the caller of the wake trigger for [mac] gets. *)
Definition wake_outcome (fc : FritzConnection) (mac : pyval) : result () :=
  of_reply (wake_reply fc mac) ≫= λ _, Ok ().

(** The raw dict [entry] has a host name that is a [str] and equals [name]
    when both are put in lower case; or one that differs from it. *)
Definition names_host (str_lower : string → string) (name : string)
    (entry : dict) : Prop :=
  ∃ s, entry !! "NewHostName" = Some (VStr s)
       ∧ str_lower s = str_lower name.

Definition names_other_host (str_lower : string → string) (name : string)
    (entry : dict) : Prop :=
  ∃ s, entry !! "NewHostName" = Some (VStr s)
       ∧ str_lower s ≠ str_lower name.

(** The action that asks for the path of the mesh list, the router's
    answer, and the address of the follow-up GET for [path]. *)
Definition mesh_call : event :=
  EvAction fritzhosts.SERVICE "X_AVM-DE_GetMeshListPath" None [].

Definition mesh_reply (fc : FritzConnection) : reply dict :=
  call_action fc fritzhosts.SERVICE "X_AVM-DE_GetMeshListPath" None [].

Definition mesh_url (fc : FritzConnection) (path : pyval) : string :=
  address fc +:+ ":" +:+ pretty (port fc) +:+ py_str path.

(** The text of the first child [name] of [item]: [None] when there is no
    such child, or when it has no text. *)
Definition child_text (item : ET.Element) (name : string) : option string :=
  ET.find item name ≫= ET.text.

(** The five children the parser reads from an [Item]. *)
Definition item_children : list string :=
  ["DeflectionId"; "Enable"; "Type"; "Number"; "DeflectionToNumber"].

(** [item] carries all five children, and the text of its [Enable] child is
    one that [int] accepts. *)
Definition well_formed (int_of_str : string → option Z) (item : ET.Element)
    : Prop :=
  Forall (λ name, is_Some (ET.find item name)) item_children
  ∧ is_Some (child_text item "Enable" ≫= int_of_str).

#[global] Instance well_formed_dec (int_of_str : string → option Z)
    (item : ET.Element) : Decision (well_formed int_of_str item).
Proof. unfold well_formed. apply _. Defined.

(** [item] is a blocked number: its [DeflectionToNumber] has no text. *)
Definition blocked (item : ET.Element) : Prop :=
  child_text item "DeflectionToNumber" = None.

#[global] Instance blocked_dec (item : ET.Element) : Decision (blocked item).
Proof. unfold blocked. apply _. Defined.

(** The record of a well-formed [item]. *)
Definition item_record (int_of_str : string → option Z) (item : ET.Element)
    : dict :=
  {[ "uid" := fritzcallforwarding.of_text (child_text item "DeflectionId");
     "from_number" := fritzcallforwarding.of_text (child_text item "Number");
     "to_number" :=
       fritzcallforwarding.of_text (child_text item "DeflectionToNumber");
     "connection_type" := fritzcallforwarding.of_text (child_text item "Type");
     "enabled" :=
       VInt (default 0%Z (child_text item "Enable" ≫= int_of_str)) ]}.

(** The items whose records are in the output. *)
Definition kept_items (filter_blocked : bool) (items : list ET.Element)
    : list ET.Element :=
  if filter_blocked then filter (λ item, ¬ blocked item) items else items.

(** The exceptions of a lookup on [None] and of a failed [int]. *)
Definition is_item_error (e : exn) : Prop :=
  e = AttributeError ∨ e = TypeError ∨ e = ValueError.

(** The record has a destination number. *)
Definition has_to_number (record : dict) : Prop :=
  record !! "to_number" ≠ Some VNone.

#[global] Instance has_to_number_dec (record : dict) : Decision (has_to_number record).
Proof. unfold has_to_number. apply _. Defined.

(** The lookup succeeds at every position of [hosts] (nothing is said of
    the index after them). *)
Definition answers_hosts (fc : FritzConnection) (hosts : list dict) : Prop :=
  ∀ i host, hosts !! i = Some host → generic_reply fc i = Reply host.

(** The first vendor-named field, in the order of the dict literal of
    [get_hosts_info], that the raw dict [host] lacks. *)
Definition first_missing_field (host : dict) : option string :=
  (λ found : nat * (string * string), found.2.2)
    <$> list_find (λ cv : string * string, host !! cv.2 = None) field_names.

(** The service of the call forwardings, as an instance made by [init]
    names it, its calls and the router's answers. *)
Definition ontel : string := "X_AVM-DE_OnTel:1".

Definition ontel_call (actionname : string) (kw : kwargs) : event :=
  EvAction ontel actionname None kw.

Definition ontel_reply (fc : FritzConnection) (actionname : string)
    (kw : kwargs) : reply dict :=
  call_action fc ontel actionname None kw.

Definition deflection_call (uid : pyval) : event :=
  ontel_call "GetDeflection" [("NewDeflectionId", uid)].

Definition deflection_reply (fc : FritzConnection) (uid : pyval) : reply dict :=
  ontel_reply fc "GetDeflection" [("NewDeflectionId", uid)].

Definition switch_call (uid enable : pyval) : event :=
  ontel_call "SetDeflectionEnable"
    [("NewDeflectionId", uid); ("NewEnable", enable)].

Definition switch_reply (fc : FritzConnection) (uid enable : pyval)
    : reply dict :=
  ontel_reply fc "SetDeflectionEnable"
    [("NewDeflectionId", uid); ("NewEnable", enable)].

(** The answer [d] of [GetDeflection] carries the four fields that
    [get_call_forwarding_by_uid] reads, and [int] makes [z] of its
    [NewEnable]. *)
Definition deflection_status (int_of_str : string → option Z) (d : dict)
    (z : Z) : Prop :=
  is_Some (d !! "NewNumber")
  ∧ is_Some (d !! "NewDeflectionToNumber")
  ∧ is_Some (d !! "NewType")
  ∧ ∃ v, d !! "NewEnable" = Some v
         ∧ fritzcallforwarding.py_int_of_val int_of_str v = Ok z.

(** The dict that [get_call_forwarding_by_uid] builds for [uid] from the
    answer [d] with status [z]. *)
Definition deflection_info (uid : pyval) (d : dict) (z : Z) : dict :=
  {[ "uid" := uid;
     "from_number" := default VNone (d !! "NewNumber");
     "to_number" := default VNone (d !! "NewDeflectionToNumber");
     "connection_type" := default VNone (d !! "NewType");
     "enabled" := VInt z ]}.

(** The words that [_print_switch] takes for "on". *)
Definition switch_flag (str_lower : string → string) (word : string) : Z :=
  if bool_decide (str_lower word ∈ ["on"; "enable"; "enabled"; "active"])
  then 1%Z else 0%Z.

(** * Properties *)

(** ** The generator of host entries *)

Section Enumeration.
Import fritzhosts.
Variable fc : FritzConnection.

Lemma get_generic_host_entry_run (index : nat) (t : trace) :
  get_generic_host_entry fc index t
  = (of_reply (generic_reply fc index), t ++ [generic_call index]).
Proof. reflexivity. Qed.

Lemma next_yields (index : nat) (host : dict) (t : trace) :
  generic_reply fc index = Reply host →
  next fc (GenSuspended index) t
  = (Ok (Some host, GenSuspended (S index)), t ++ [generic_call index]).
Proof.
  intros Hreply. cbv [next try_except mbind M_bind mret M_ret].
  rewrite get_generic_host_entry_run, Hreply. reflexivity.
Qed.

Lemma next_stops (index : nat) (e : exn) (t : trace) :
  generic_reply fc index = Fault e → is_IndexError e = true →
  next fc (GenSuspended index) t
  = (Ok (None, GenFinished), t ++ [generic_call index]).
Proof.
  intros Hreply He. cbv [next try_except mbind M_bind mret M_ret].
  rewrite get_generic_host_entry_run, Hreply. simpl. rewrite He. reflexivity.
Qed.

Lemma next_raises (index : nat) (e : exn) (t : trace) :
  generic_reply fc index = Fault e → is_IndexError e = false →
  next fc (GenSuspended index) t = (Raise e, t ++ [generic_call index]).
Proof.
  intros Hreply He. cbv [next try_except mbind M_bind mret M_ret].
  rewrite get_generic_host_entry_run, Hreply. simpl. rewrite He. reflexivity.
Qed.

Lemma generic_calls_cons (from count : nat) :
  generic_calls from (S count)
  = generic_call from :: generic_calls (S from) count.
Proof. reflexivity. Qed.

Lemma list_of_step (fuel : nat) (g : generator) (t : trace) :
  list_of fc (S fuel) g t
  = match next fc g t with
    | (Ok (None, _), t') => (Ok [], t')
    | (Ok (Some host, g'), t') =>
        match list_of fc fuel g' t' with
        | (Ok rest, t'') => (Ok (host :: rest), t'')
        | (Raise e, t'') => (Raise e, t'')
        | (OutOfFuel, t'') => (OutOfFuel, t'')
        end
    | (Raise e, t') => (Raise e, t')
    | (OutOfFuel, t') => (OutOfFuel, t')
    end.
Proof.
  cbn [list_of]. unfold mbind at 1. unfold M_bind at 1.
  destruct (next fc g t) as [[[[host|] g']|e|] t']; reflexivity.
Qed.

Lemma list_of_from (hosts : list dict) (fuel k : nat) (t : trace) :
  reports_hosts fc hosts →
  k ≤ length hosts → length hosts - k < fuel →
  list_of fc fuel (GenSuspended k) t
  = (Ok (drop k hosts), t ++ generic_calls k (S (length hosts - k))).
Proof.
  intros [Hin [e [Hout He]]]. revert k t.
  induction fuel as [|fuel IH]; intros k t Hk Hfuel; [lia|].
  rewrite list_of_step.
  destruct (decide (k = length hosts)) as [->|Hne].
  - rewrite (next_stops _ e) by done.
    rewrite drop_all, Nat.sub_diag. reflexivity.
  - assert (k < length hosts) as Hlt by lia.
    destruct (lookup_lt_is_Some_2 hosts k Hlt) as [host Hhost].
    rewrite (next_yields _ host) by auto.
    rewrite IH by lia.
    rewrite (drop_S _ _ _ Hhost).
    replace (length hosts - k) with (S (length hosts - S k)) by lia.
    rewrite (generic_calls_cons k), <- app_assoc. reflexivity.
Qed.

End Enumeration.

(** The simulated router knows exactly the hosts of its table. *)
Lemma mock_router_reports_hosts (table : list dict) (mesh : Response.t) :
  reports_hosts (mock.router table mesh) table.
Proof.
  split.
  - intros i host Hhost. unfold generic_reply. simpl. unfold mock.answer. simpl.
    rewrite Nat2Z.id, Hhost. reflexivity.
  - exists (IndexOutOfRange "713"). split; [|reflexivity].
    unfold generic_reply. simpl. unfold mock.answer. simpl.
    rewrite Nat2Z.id, (lookup_ge_None_2 table (length table)) by lia.
    reflexivity.
Qed.

(** C1. For a router that knows [n] hosts (the lookup succeeds at the
    indices [0..n-1] and signals an IndexError at [n]),
    [get_generic_host_entries()] yields exactly these [n] raw dicts in
    index order and then stops normally: the IndexError at index [n] ends
    the sequence and is not raised.  Step by step: [next] at index [i < n]
    yields host [i] and suspends at [i + 1]; [next] at index [n] answers
    StopIteration, and so does every later [next].  Each invocation makes a
    generator that starts at index 0 again: two enumerations in a row both
    produce the [n] hosts and ask the router for the indices [0..n] twice. *)
Theorem get_generic_host_entries_enumerates
    (fc : FritzConnection) (hosts : list dict) (fuel : nat) (t : trace) :
  reports_hosts fc hosts →
  length hosts < fuel →
  fritzhosts.list_of fc fuel fritzhosts.get_generic_host_entries t
  = (Ok hosts, t ++ generic_calls 0 (S (length hosts)))
  ∧ (∀ i host t', hosts !! i = Some host →
       fritzhosts.next fc (fritzhosts.GenSuspended i) t'
       = (Ok (Some host, fritzhosts.GenSuspended (S i)), t' ++ [generic_call i]))
  ∧ (∀ t', fritzhosts.next fc (fritzhosts.GenSuspended (length hosts)) t'
           = (Ok (None, fritzhosts.GenFinished),
              t' ++ [generic_call (length hosts)]))
  ∧ (∀ t', fritzhosts.next fc fritzhosts.GenFinished t'
           = (Ok (None, fritzhosts.GenFinished), t'))
  ∧ (first ← fritzhosts.list_of fc fuel fritzhosts.get_generic_host_entries;
     second ← fritzhosts.list_of fc fuel fritzhosts.get_generic_host_entries;
     mret (first, second)) t
    = (Ok (hosts, hosts),
       t ++ generic_calls 0 (S (length hosts))
         ++ generic_calls 0 (S (length hosts))).
Proof.
  intros Hreports Hfuel.
  assert (∀ t', fritzhosts.list_of fc fuel fritzhosts.get_generic_host_entries t'
                = (Ok hosts, t' ++ generic_calls 0 (S (length hosts)))) as Hall.
  { intros t'. unfold fritzhosts.get_generic_host_entries.
    rewrite (list_of_from fc hosts) by (done || lia).
    rewrite drop_0, Nat.sub_0_r. reflexivity. }
  split; [apply Hall|].
  destruct Hreports as [Hin [e [Hout He]]].
  split; [intros i host t' Hhost; apply next_yields; auto|].
  split; [intros t'; apply (next_stops fc _ e); assumption|].
  split; [reflexivity|].
  unfold mbind at 1. unfold M_bind at 1. rewrite Hall.
  unfold mbind at 1. unfold M_bind at 1. rewrite Hall.
  rewrite <- app_assoc. reflexivity.
Qed.

Lemma get_generic_host_entries_enumerates_witness :
  reports_hosts mock.fh mock.two_hosts
  ∧ fritzhosts.list_of mock.fh 3 fritzhosts.get_generic_host_entries []
    = (Ok mock.two_hosts, generic_calls 0 3).
Proof.
  split.
  - apply mock_router_reports_hosts.
  - apply (get_generic_host_entries_enumerates mock.fh mock.two_hosts 3 []).
    + apply mock_router_reports_hosts.
    + simpl. lia.
Defined.

(** ** [get_host_status] *)

(** C3. [get_host_status(mac)] makes exactly one call, the lookup of
    [get_specific_host_entry].  When that lookup raises an ArgumentError or
    a LookUpError the function returns [None]; when it raises any other
    exception, that exception is raised to the caller unchanged; when it
    answers an entry, the function returns the entry's ["NewActive"] value
    (and raises [KeyError] for an entry without that field). *)
Theorem get_host_status_swallows_only_lookup_errors
    (fc : FritzConnection) (mac : pyval) (t : trace) :
  (∀ e, specific_reply fc mac = Fault e →
        (∃ msg, e = FritzArgumentError msg ∨ e = FritzLookUpError msg) →
        fritzhosts.get_host_status fc mac t = (Ok VNone, t ++ [specific_call mac]))
  ∧ (∀ e, specific_reply fc mac = Fault e →
          (∀ msg, e ≠ FritzArgumentError msg ∧ e ≠ FritzLookUpError msg) →
          fritzhosts.get_host_status fc mac t = (Raise e, t ++ [specific_call mac]))
  ∧ (∀ entry, specific_reply fc mac = Reply entry →
          fritzhosts.get_host_status fc mac t
          = (getitem entry "NewActive", t ++ [specific_call mac]))
  ∧ (∀ entry active, specific_reply fc mac = Reply entry →
          entry !! "NewActive" = Some active →
          fritzhosts.get_host_status fc mac t
          = (Ok active, t ++ [specific_call mac])).
Proof.
  assert (∀ r, specific_reply fc mac = r →
            fritzhosts.get_host_status fc mac t
            = (match r with
               | Reply entry => getitem entry "NewActive"
               | Fault e =>
                   if is_ArgumentError_or_LookUpError e then Ok VNone
                   else Raise e
               end, t ++ [specific_call mac])) as Hrun.
  { intros r Hr. unfold specific_reply in Hr.
    cbv [fritzhosts.get_host_status fritzhosts.get_specific_host_entry
         fritzhosts._action try_except mbind M_bind mret M_ret fmap M_fmap
         emit lift raise].
    rewrite Hr. destruct r as [entry|e]; simpl; [reflexivity|].
    destruct (is_ArgumentError_or_LookUpError e); reflexivity. }
  repeat split.
  - intros e He [msg [->| ->]]; rewrite (Hrun _ He); reflexivity.
  - intros e He Hother. rewrite (Hrun _ He).
    destruct e as [| msg | msg | | | | | | | | | |]; try reflexivity;
      destruct (Hother msg) as [Harg Hlook]; congruence.
  - intros entry He. rewrite (Hrun _ He). reflexivity.
  - intros entry active He Hactive. rewrite (Hrun _ He).
    unfold getitem. rewrite Hactive. reflexivity.
Qed.

(** The statuses of a known, an unknown and a malformed MAC address on the
    simulated router. *)
Example get_host_status_known :
  run (fritzhosts.get_host_status mock.fh (VStr "11:22:33:44:55:66"))
  = (Ok (VBool true), [specific_call (VStr "11:22:33:44:55:66")]).
Proof. vm_compute. reflexivity. Qed.

Example get_host_status_unknown :
  run (fritzhosts.get_host_status mock.fh (VStr "00:00:00:00:00:00"))
  = (Ok VNone, [specific_call (VStr "00:00:00:00:00:00")]).
Proof. vm_compute. reflexivity. Qed.

(** ** [get_hosts_info] and [get_active_hosts] *)

Section HostsInfo.
Import fritzhosts.
Variable fc : FritzConnection.

Lemma host_info_sound (host record : dict) :
  host_info host = Ok record → host_record host record.
Proof.
  unfold host_info, getitem.
  destruct (host !! "NewIPAddress") as [ip|] eqn:Hip; [|discriminate].
  destruct (host !! "NewHostName") as [name|] eqn:Hname; [|discriminate].
  destruct (host !! "NewMACAddress") as [mac|] eqn:Hmac; [|discriminate].
  destruct (host !! "NewActive") as [status|] eqn:Hstatus; [|discriminate].
  destruct (host !! "NewInterfaceType") as [itype|] eqn:Hitype; [|discriminate].
  destruct (host !! "NewAddressSource") as [source|] eqn:Hsource; [|discriminate].
  destruct (host !! "NewLeaseTimeRemaining") as [lease|] eqn:Hlease; [|discriminate].
  simpl. intros [= <-]. split.
  - vm_compute. reflexivity.
  - unfold field_names. repeat constructor; simpl; eauto.
    all: rewrite ?Hip, ?Hname, ?Hmac, ?Hstatus, ?Hitype, ?Hsource, ?Hlease; vm_compute; reflexivity.
Qed.

Lemma host_info_total (host : dict) :
  has_vendor_fields host → ∃ record, host_info host = Ok record.
Proof.
  unfold has_vendor_fields, field_names. rewrite !Forall_cons. simpl.
  intros ([ip Hip] & [name Hname] & [mac Hmac] & [status Hstatus]
          & [itype Hitype] & [source Hsource] & [lease Hlease] & _).
  unfold host_info, getitem.
  rewrite Hip, Hname, Hmac, Hstatus, Hitype, Hsource, Hlease. simpl. eauto.
Qed.

Lemma get_hosts_info_loop_step (fuel index : nat) (result : list dict) (t : trace) :
  get_hosts_info_loop fc (S fuel) index result t
  = match generic_reply fc index with
    | Reply host =>
        match host_info host with
        | Ok record =>
            get_hosts_info_loop fc fuel (S index) (result ++ [record])
              (t ++ [generic_call index])
        | Raise e => (Raise e, t ++ [generic_call index])
        | OutOfFuel => (OutOfFuel, t ++ [generic_call index])
        end
    | Fault e =>
        if is_IndexError e then (Ok result, t ++ [generic_call index])
        else (Raise e, t ++ [generic_call index])
    end.
Proof.
  cbn [get_hosts_info_loop].
  unfold mbind at 1. unfold M_bind at 1.
  unfold try_except, fmap, M_fmap.
  unfold mbind at 1. unfold M_bind at 1.
  rewrite get_generic_host_entry_run.
  destruct (generic_reply fc index) as [host|e]; simpl.
  - unfold mbind at 1. unfold M_bind at 1. unfold lift.
    destruct (host_info host); reflexivity.
  - destruct (is_IndexError e); reflexivity.
Qed.

(** Whatever the router is: when the loop returns, it has met a run of
    hosts ended by an [IndexError], and has appended their records. *)
Lemma get_hosts_info_loop_sound (fuel index : nat) (result out : list dict)
    (t t' : trace) :
  get_hosts_info_loop fc fuel index result t = (Ok out, t') →
  ∃ hosts records,
    out = result ++ records
    ∧ Forall2 host_record hosts records
    ∧ (∀ i host, hosts !! i = Some host →
                 generic_reply fc (index + i) = Reply host)
    ∧ (∃ e, generic_reply fc (index + length hosts) = Fault e
            ∧ is_IndexError e = true)
    ∧ t' = t ++ generic_calls index (S (length hosts)).
Proof.
  revert index result t.
  induction fuel as [|fuel IH]; intros index result t; [discriminate|].
  rewrite get_hosts_info_loop_step.
  destruct (generic_reply fc index) as [host|e] eqn:Hreply.
  - destruct (host_info host) as [record| |] eqn:Hinfo; [|discriminate..].
    intros Hrun. apply IH in Hrun
      as (hosts & records & -> & Hrecords & Hin & (e & Hout & He) & ->).
    exists (host :: hosts), (record :: records).
    split; [by rewrite <- app_assoc|].
    split; [constructor; [by apply host_info_sound|done]|].
    split.
    { intros [|i] host' Hhost'; simpl in Hhost'.
      - injection Hhost' as <-. by rewrite Nat.add_0_r.
      - rewrite <- Nat.add_succ_comm. by apply Hin. }
    split.
    { exists e. simpl. rewrite <- Nat.add_succ_comm. done. }
    simpl length. rewrite (generic_calls_cons index), <- app_assoc. reflexivity.
  - destruct (is_IndexError e) eqn:He; [|discriminate].
    intros [= <- <-]. exists [], [].
    split; [by rewrite app_nil_r|].
    split; [constructor|].
    split; [intros i host Hhost; by rewrite lookup_nil in Hhost|].
    split; [exists e; simpl; by rewrite Nat.add_0_r|].
    reflexivity.
Qed.

(** A router knows one list of hosts only. *)
Lemma reports_hosts_unique (hosts1 hosts2 : list dict) :
  reports_hosts fc hosts1 → reports_hosts fc hosts2 → hosts1 = hosts2.
Proof.
  intros [Hin1 (e1 & Hout1 & _)] [Hin2 (e2 & Hout2 & _)].
  assert (length hosts1 = length hosts2) as Hlen.
  { destruct (Nat.lt_trichotomy (length hosts1) (length hosts2)) as [Hlt|[Heq|Hlt]];
      [|done|].
    - destruct (lookup_lt_is_Some_2 _ _ Hlt) as [host Hhost].
      apply Hin2 in Hhost. congruence.
    - destruct (lookup_lt_is_Some_2 _ _ Hlt) as [host Hhost].
      apply Hin1 in Hhost. congruence. }
  apply list_eq_same_length with (length hosts1); [done..|].
  intros i host1 host2 Hi Hhost1 Hhost2.
  apply Hin1 in Hhost1. apply Hin2 in Hhost2. congruence.
Qed.

Lemma get_hosts_info_loop_total (hosts : list dict) (fuel index : nat)
    (result : list dict) (t : trace) :
  reports_hosts fc hosts →
  Forall has_vendor_fields hosts →
  index ≤ length hosts → length hosts - index < fuel →
  ∃ records,
    get_hosts_info_loop fc fuel index result t
    = (Ok (result ++ records),
       t ++ generic_calls index (S (length hosts - index))).
Proof.
  intros [Hin (e & Hout & He)] Hfields. revert index result t.
  induction fuel as [|fuel IH]; intros index result t Hindex Hfuel; [lia|].
  rewrite get_hosts_info_loop_step.
  destruct (decide (index = length hosts)) as [->|Hne].
  - rewrite Hout, He, Nat.sub_diag. exists []. by rewrite app_nil_r.
  - assert (index < length hosts) as Hlt by lia.
    destruct (lookup_lt_is_Some_2 hosts index Hlt) as [host Hhost].
    rewrite (Hin _ _ Hhost).
    destruct (host_info_total host) as [record Hrecord].
    { eapply Forall_lookup_1; eauto. }
    rewrite Hrecord.
    destruct (IH (S index) (result ++ [record]) (t ++ [generic_call index]))
      as [records Hrun]; [lia..|].
    exists (record :: records). rewrite Hrun.
    replace (length hosts - index) with (S (length hosts - S index)) by lia.
    rewrite (generic_calls_cons index), <- !app_assoc. reflexivity.
Qed.

Lemma host_record_status (host record : dict) :
  host_record host record → is_Some (record !! "status").
Proof.
  intros [Hdom _]. apply elem_of_dom. rewrite Hdom. vm_compute. reflexivity.
Qed.

Lemma active_of_filter (records : list dict) :
  Forall (λ record : dict, is_Some (record !! "status")) records →
  active_of records = Ok (filter status_truthy records).
Proof.
  induction 1 as [|record records [status Hstatus] _ IH]; [reflexivity|].
  cbn [active_of]. unfold getitem. rewrite Hstatus, IH. simpl.
  rewrite filter_cons.
  case_decide as Htruthy; unfold status_truthy in Htruthy;
    rewrite Hstatus in Htruthy; simpl in Htruthy;
    destruct (truthy status); simpl; done.
Qed.

Lemma filter_status_bool (records : list dict) :
  Forall status_is_bool records →
  filter status_truthy records = filter status_true records.
Proof.
  induction 1 as [|record records Hbool _ IH]; [reflexivity|].
  rewrite !filter_cons, IH.
  unfold status_is_bool in Hbool.
  do 2 case_decide; try reflexivity; exfalso;
    unfold status_truthy, status_true in *;
    destruct (record !! "status") as [[|[|]| |]|]; simplify_eq/=; congruence.
Qed.

End HostsInfo.

(** C4. For a router that knows the hosts [hosts], [get_hosts_info()]
    returns when every raw dict carries the seven vendor-named fields, and
    whenever it returns, its list has one record per host, in enumeration
    order, and the record at position [i] has exactly the seven keys ip,
    name, mac, status, interface_type, address_source and
    lease_time_remaining, each holding the value of the corresponding
    vendor-named field of the raw dict at position [i]. *)
Theorem get_hosts_info_canonical_records
    (fc : FritzConnection) (hosts : list dict) (fuel : nat) (t : trace) :
  reports_hosts fc hosts →
  length hosts < fuel →
  (Forall has_vendor_fields hosts →
     ∃ records, fritzhosts.get_hosts_info fc fuel t
                = (Ok records, t ++ generic_calls 0 (S (length hosts))))
  ∧ (∀ records t', fritzhosts.get_hosts_info fc fuel t = (Ok records, t') →
       length records = length hosts
       ∧ Forall2 host_record hosts records
       ∧ ∀ i host record,
           hosts !! i = Some host → records !! i = Some record →
           dom record = canonical_keys
           ∧ record !! "ip" = host !! "NewIPAddress"
           ∧ record !! "name" = host !! "NewHostName"
           ∧ record !! "mac" = host !! "NewMACAddress"
           ∧ record !! "status" = host !! "NewActive"
           ∧ record !! "interface_type" = host !! "NewInterfaceType"
           ∧ record !! "address_source" = host !! "NewAddressSource"
           ∧ record !! "lease_time_remaining" = host !! "NewLeaseTimeRemaining").
Proof.
  intros Hreports Hfuel. split.
  - intros Hfields. unfold fritzhosts.get_hosts_info.
    destruct (get_hosts_info_loop_total fc hosts fuel 0 [] t)
      as [records Hrun]; [done|done|lia|lia|].
    exists records. rewrite Hrun, Nat.sub_0_r. reflexivity.
  - intros records t' Hrun. unfold fritzhosts.get_hosts_info in Hrun.
    apply get_hosts_info_loop_sound in Hrun
      as (hosts' & records' & -> & Hrecords & Hin & Hout & _).
    assert (hosts' = hosts) as ->.
    { apply (reports_hosts_unique fc); [split; assumption|assumption]. }
    simpl. split; [symmetry; eapply Forall2_length; eassumption|].
    split; [assumption|].
    intros i host record Hhost Hrecord.
    destruct (Forall2_lookup_lr _ _ _ _ _ _ Hrecords Hhost Hrecord)
      as [Hdom Hvalues].
    split; [assumption|].
    unfold field_names in Hvalues. rewrite !Forall_cons in Hvalues.
    simpl in Hvalues. tauto.
Qed.

Lemma get_hosts_info_canonical_records_witness :
  ∃ records,
    fritzhosts.get_hosts_info mock.fh 3 [] = (Ok records, generic_calls 0 3)
    ∧ Forall2 host_record mock.two_hosts records.
Proof.
  destruct (get_hosts_info_canonical_records mock.fh mock.two_hosts 3 [])
    as [Htotal Hsound].
  - apply mock_router_reports_hosts.
  - simpl. lia.
  - destruct Htotal as [records Hrun].
    + repeat constructor; vm_compute; eauto.
    + exists records. split; [exact Hrun|].
      apply (Hsound records _ Hrun).
Defined.

(** C5. Whenever [get_hosts_info()] returns a list, [get_active_hosts()]
    makes the same calls and returns the records of that list whose status
    is true in a test, in the same order: a subsequence of the list.  The
    status of a record being a [bool], the status is true in a test
    exactly when it is [True], so that the result is the list of the
    records whose status is [True]. *)
Theorem get_active_hosts_filters_hosts_info
    (fc : FritzConnection) (fuel : nat) (t t' : trace) (records : list dict) :
  fritzhosts.get_hosts_info fc fuel t = (Ok records, t') →
  fritzhosts.get_active_hosts fc fuel t
  = (Ok (filter status_truthy records), t')
  ∧ filter status_truthy records `sublist_of` records
  ∧ (∀ record, record ∈ filter status_truthy records
               ↔ record ∈ records ∧ status_truthy record)
  ∧ (∀ record, status_is_bool record →
               (status_truthy record ↔ record !! "status" = Some (VBool true)))
  ∧ (Forall status_is_bool records →
     fritzhosts.get_active_hosts fc fuel t
     = (Ok (filter status_true records), t')).
Proof.
  intros Hrun.
  assert (fritzhosts.get_active_hosts fc fuel t
          = (Ok (filter status_truthy records), t')) as Hactive.
  { unfold fritzhosts.get_active_hosts.
    unfold mbind at 1. unfold M_bind at 1. rewrite Hrun. unfold lift.
    rewrite active_of_filter; [reflexivity|].
    unfold fritzhosts.get_hosts_info in Hrun.
    apply get_hosts_info_loop_sound in Hrun
      as (hosts & records' & -> & Hrecords & _).
    simpl. induction Hrecords; constructor; [|assumption].
    eapply host_record_status; eassumption. }
  split; [exact Hactive|]. split; [apply sublist_filter|]. split; [|split].
  - intros record. rewrite list_elem_of_filter. tauto.
  - intros record. unfold status_is_bool, status_truthy.
    destruct (record !! "status") as [[|[|]| |]|]; simpl; split; congruence.
  - intros Hbool. rewrite Hactive, filter_status_bool by assumption.
    reflexivity.
Qed.

Lemma get_active_hosts_filters_hosts_info_witness :
  fritzhosts.get_active_hosts mock.fh 3 []
  = (Ok (filter status_truthy mock.two_records), generic_calls 0 3)
  ∧ filter status_truthy mock.two_records
    = [mock.record_of "192.168.178.20" "otherhost" "11:22:33:44:55:66" true 0%Z].
Proof.
  split.
  - refine (proj1 (get_active_hosts_filters_hosts_info mock.fh 3 []
                     (generic_calls 0 3) mock.two_records _)).
    vm_compute. reflexivity.
  - vm_compute. reflexivity.
Defined.

(** When [get_hosts_info()] raises, [get_active_hosts()] raises the same
    exception after the same calls. *)
Lemma get_active_hosts_raises (fc : FritzConnection) (fuel : nat)
    (t t' : trace) (e : exn) :
  fritzhosts.get_hosts_info fc fuel t = (Raise e, t') →
  fritzhosts.get_active_hosts fc fuel t = (Raise e, t').
Proof.
  intros Hrun. unfold fritzhosts.get_active_hosts.
  unfold mbind at 1. unfold M_bind at 1. rewrite Hrun. reflexivity.
Qed.

(** ** [get_mesh_topology] *)

(** C9. [get_mesh_topology(raw)] first calls the action that answers the
    path of the mesh list, then issues one GET on the address made of the
    connection's address, its port and that path.  When the response is not
    a success ([response.ok] is false) it raises an ActionError whose
    message carries the status code, whatever [raw] is; when the response
    is a success it returns the text of the body for [raw=True] and what
    [response.json()] gives for [raw=False]. *)
Theorem get_mesh_topology_two_steps
    (fc : FritzConnection) (t : trace) (result : dict) (path : pyval)
    (response : Response.t) :
  mesh_reply fc = Reply result →
  result !! "NewX_AVM-DE_MeshListPath" = Some path →
  session_get fc (mesh_url fc path) = Reply response →
  let t' := t ++ [mesh_call; EvGet (mesh_url fc path)] in
  (Response.ok response = false →
     ∀ raw, fritzhosts.get_mesh_topology fc raw t
            = (Raise (FritzActionError
                        ("Error " +:+ pretty (Response.status_code response)
                         +:+ ": Device has no access to topology information.")),
               t'))
  ∧ (Response.ok response = true →
       fritzhosts.get_mesh_topology fc true t
       = (Ok (fritzhosts.TopologyText (Response.text response)), t')
       ∧ fritzhosts.get_mesh_topology fc false t
         = (fritzhosts.TopologyJson <$> of_reply (Response.json response), t')
       ∧ ∀ body, Response.json response = Reply body →
           fritzhosts.get_mesh_topology fc false t
           = (Ok (fritzhosts.TopologyJson body), t')).
Proof.
  intros Hmesh Hpath Hget t'.
  assert (∀ raw, fritzhosts.get_mesh_topology fc raw t
            = (if negb (Response.ok response) then
                 Raise (FritzActionError
                          ("Error " +:+ pretty (Response.status_code response)
                           +:+ ": Device has no access to topology information."))
               else if raw then Ok (fritzhosts.TopologyText (Response.text response))
               else fritzhosts.TopologyJson <$> of_reply (Response.json response),
               t')) as Hrun.
  { intros raw. unfold mesh_reply in Hmesh. unfold mesh_url in Hget.
    cbv [fritzhosts.get_mesh_topology fritzhosts._action fritzhosts.session_get_
         mbind M_bind mret M_ret emit lift raise].
    rewrite Hmesh. simpl. unfold getitem. rewrite Hpath.
    rewrite Hget. simpl. subst t'. rewrite <- app_assoc. simpl.
    destruct (Response.ok response); simpl; [|reflexivity].
    destruct raw; [reflexivity|].
    unfold fmap, M_fmap, mbind, M_bind, mret, M_ret.
    destruct (Response.json response); reflexivity. }
  split.
  - intros Hok raw. rewrite Hrun, Hok. reflexivity.
  - intros Hok. rewrite !Hrun, Hok. simpl. repeat split.
    intros body ->. reflexivity.
Qed.

Lemma get_mesh_topology_two_steps_witness :
  (∀ raw, fritzhosts.get_mesh_topology mock.fh raw []
          = (Raise (FritzActionError
                      "Error 404: Device has no access to topology information."),
             [mesh_call; EvGet "http://169.254.1.1:49000/meshlist.lua?sid=0"]))
  ∧ fritzhosts.get_mesh_topology (mock.router [] mock.mesh_body) true []
    = (Ok (fritzhosts.TopologyText "{}"),
       [mesh_call; EvGet "http://169.254.1.1:49000/meshlist.lua?sid=0"]).
Proof.
  split.
  - apply (get_mesh_topology_two_steps mock.fh []
             {[ "NewX_AVM-DE_MeshListPath" := VStr "/meshlist.lua?sid=0" ]}
             (VStr "/meshlist.lua?sid=0") mock.no_mesh);
      reflexivity.
  - apply (get_mesh_topology_two_steps (mock.router [] mock.mesh_body) []
             {[ "NewX_AVM-DE_MeshListPath" := VStr "/meshlist.lua?sid=0" ]}
             (VStr "/meshlist.lua?sid=0") mock.mesh_body);
      reflexivity.
Defined.

(** ** [wake_host] *)

Section WakeHost.
Import fritzhosts fritzwol.
Variable str_lower : string → string.
Variable fh : FritzConnection.

Lemma wakeonlan_host_run (mac : pyval) (t : trace) :
  wakeonlan_host fh mac t = (wake_outcome fh mac, t ++ [wake_call mac]).
Proof.
  unfold wake_outcome, wake_reply.
  cbv [wakeonlan_host _action mbind M_bind mret M_ret emit lift].
  destruct (call_action fh SERVICE "X_AVM-DE_WakeOnLANByMACAddress" None
              [("NewMACAddress", mac)]); reflexivity.
Qed.

Lemma wake_host_resolved (fuel : nat) (args : Namespace) (mac : pyval)
    (t t' : trace) :
  resolve str_lower fuel fh args t = (Ok (Some mac), t') →
  wake_host str_lower fuel fh args t =
    (wake_outcome fh mac, t' ++ [wake_call mac]).
Proof.
  intros Hresolve. unfold wake_host.
  unfold mbind at 1. unfold M_bind at 1. rewrite Hresolve.
  apply wakeonlan_host_run.
Qed.

Lemma wake_host_unresolved (fuel : nat) (args : Namespace) (e : exn)
    (t t' : trace) :
  resolve str_lower fuel fh args t = (Raise e, t') →
  wake_host str_lower fuel fh args t = (Raise e, t').
Proof.
  intros Hresolve. unfold wake_host.
  unfold mbind at 1. unfold M_bind at 1. rewrite Hresolve. reflexivity.
Qed.

Lemma given_nonempty (s : string) : s ≠ "" → given (Some s) = Some s.
Proof.
  intros Hs. unfold given. destruct (String.eqb_spec s ""); congruence.
Qed.

Lemma get_specific_host_entry_by_ip_run (ip : pyval) (t : trace) :
  get_specific_host_entry_by_ip fh ip t
  = (of_reply (by_ip_reply fh ip), t ++ [by_ip_call ip]).
Proof. reflexivity. Qed.

Lemma for_in_step {B} (fuel : nat) (g : generator) (body : dict → M (option B))
    (t : trace) :
  for_in fh (S fuel) g body t
  = match next fh g t with
    | (Ok (None, _), t') => (Ok None, t')
    | (Ok (Some x, g'), t') =>
        match body x t' with
        | (Ok (Some b), t'') => (Ok (Some b), t'')
        | (Ok None, t'') => for_in fh fuel g' body t''
        | (Raise e, t'') => (Raise e, t'')
        | (OutOfFuel, t'') => (OutOfFuel, t'')
        end
    | (Raise e, t') => (Raise e, t')
    | (OutOfFuel, t') => (OutOfFuel, t')
    end.
Proof.
  cbn [for_in]. unfold mbind at 1. unfold M_bind at 1.
  destruct (next fh g t) as [[[[x|] g']|e|] t']; try reflexivity.
  unfold mbind at 1. unfold M_bind at 1.
  destruct (body x t') as [[[b|]|e|] t'']; reflexivity.
Qed.

Lemma match_entry_other (name : string) (entry : dict) (t : trace) :
  names_other_host str_lower name entry →
  match_entry str_lower (str_lower name) entry t = (Ok None, t).
Proof.
  intros (s & Hname & Hne).
  cbv [match_entry mbind M_bind mret M_ret lift getitem].
  rewrite Hname. simpl.
  destruct (String.eqb_spec (str_lower s) (str_lower name)); [done|reflexivity].
Qed.

Lemma match_entry_hit (name : string) (entry : dict) (mac : pyval) (t : trace) :
  names_host str_lower name entry → entry !! "NewMACAddress" = Some mac →
  match_entry str_lower (str_lower name) entry t = (Ok (Some mac), t).
Proof.
  intros (s & Hname & Heq) Hmac.
  cbv [match_entry mbind M_bind mret M_ret lift getitem].
  rewrite Hname. simpl. rewrite Heq, String.eqb_refl, Hmac. reflexivity.
Qed.

(** The scan walks over a run of hosts with other names, one call each. *)
Lemma for_in_skips (name : string) (others : list dict) (j fuel k : nat)
    (t : trace) :
  (∀ i entry, others !! i = Some entry → generic_reply fh i = Reply entry) →
  Forall (names_other_host str_lower name) others →
  k + j = length others →
  for_in fh (j + fuel) (GenSuspended k)
    (match_entry str_lower (str_lower name)) t
  = for_in fh fuel (GenSuspended (length others))
      (match_entry str_lower (str_lower name))
      (t ++ generic_calls k j).
Proof.
  intros Hin Hothers. revert k t.
  induction j as [|j IH]; intros k t Hk.
  - simpl. rewrite Nat.add_0_r in Hk. subst k.
    unfold generic_calls. simpl. by rewrite app_nil_r.
  - assert (k < length others) as Hlt by lia.
    destruct (lookup_lt_is_Some_2 others k Hlt) as [entry Hentry].
    rewrite Nat.add_succ_l, for_in_step.
    rewrite (next_yields fh k entry) by auto.
    rewrite match_entry_other by (eapply Forall_lookup_1; eauto).
    rewrite IH by lia.
    rewrite (generic_calls_cons k), <- app_assoc. reflexivity.
Qed.

Lemma resolve_mac (fuel : nat) (mac : string) (ip name : option string)
    (t : trace) :
  mac ≠ "" →
  resolve str_lower fuel fh (Build_Namespace (Some mac) ip name) t
  = (Ok (Some (VStr mac)), t).
Proof.
  intros Hmac. unfold resolve. cbn [device_mac_address].
  rewrite (given_nonempty mac Hmac). reflexivity.
Qed.

Lemma resolve_ip (fuel : nat) (mac name : option string) (ip : string)
    (t : trace) :
  given mac = None → ip ≠ "" →
  resolve str_lower fuel fh (Build_Namespace mac (Some ip) name) t
  = (match by_ip_reply fh (VStr ip) with
     | Reply host => Some <$> getitem host "NewMACAddress"
     | Fault e =>
         if is_ArgumentError_or_LookUpError e
         then Raise (FritzArgumentError ("Error: unknown IP " +:+ ip))
         else Raise e
     end, t ++ [by_ip_call (VStr ip)]).
Proof.
  intros Hmac Hip. unfold resolve.
  cbn [device_mac_address device_ip_address].
  rewrite Hmac, (given_nonempty ip Hip).
  unfold mbind at 1. unfold M_bind at 1. unfold try_except.
  rewrite get_specific_host_entry_by_ip_run.
  destruct (by_ip_reply fh (VStr ip)) as [host|e]; simpl.
  - cbv [mbind M_bind lift mret M_ret].
    destruct (getitem host "NewMACAddress"); reflexivity.
  - destruct (is_ArgumentError_or_LookUpError e); reflexivity.
Qed.

Lemma resolve_name (fuel : nat) (mac ip : option string) (name : string)
    (t : trace) :
  given mac = None → given ip = None → name ≠ "" →
  resolve str_lower fuel fh (Build_Namespace mac ip (Some name)) t
  = match for_in fh fuel get_generic_host_entries
            (match_entry str_lower (str_lower name)) t with
    | (Ok (Some found), t') => (Ok (Some found), t')
    | (Ok None, t') =>
        (Raise (FritzArgumentError
                  ("Error: unknown device name '" +:+ name +:+ "'")), t')
    | (Raise e, t') => (Raise e, t')
    | (OutOfFuel, t') => (OutOfFuel, t')
    end.
Proof.
  intros Hmac Hip Hname. unfold resolve.
  cbn [device_mac_address device_ip_address device_name].
  rewrite Hmac, Hip, (given_nonempty name Hname).
  unfold mbind at 1. unfold M_bind at 1.
  destruct (for_in fh fuel get_generic_host_entries
              (match_entry str_lower (str_lower name)) t) as [[[found|]|e|] t'];
                reflexivity.
Qed.

End WakeHost.

(** C7. The resolution of the host to wake, for a MAC address, an IP
    address or a name that is given (not [None], not empty).

    - MAC given: no lookup is made; the only call is the wake trigger, with
      exactly that MAC.
    - IP given (no MAC), the lookup by IP answering an entry whose MAC is
      [X]: exactly one lookup by IP, then the wake trigger with [X].
    - Name given (no MAC, no IP), the router's entries [0..k-1] having other
      names and its entry [k] having that name up to case, with MAC [X]:
      the entries [0..k] are fetched in order, then the wake trigger is
      called with [X]; no entry after the first match is fetched and no
      lookup by IP is made. *)
Theorem wake_host_resolution (str_lower : string → string)
    (fh : FritzConnection) (fuel : nat) (t : trace) :
  (∀ mac ip name,
     mac ≠ "" →
     fritzwol.wake_host str_lower fuel fh
       (fritzwol.Build_Namespace (Some mac) ip name) t
     = (wake_outcome fh (VStr mac), t ++ [wake_call (VStr mac)]))
  ∧ (∀ mac ip name host X,
       fritzwol.given mac = None → ip ≠ "" →
       by_ip_reply fh (VStr ip) = Reply host →
       host !! "NewMACAddress" = Some X →
       fritzwol.wake_host str_lower fuel fh
         (fritzwol.Build_Namespace mac (Some ip) name) t
       = (wake_outcome fh X, t ++ [by_ip_call (VStr ip); wake_call X]))
  ∧ (∀ mac ip name others entry X,
       fritzwol.given mac = None → fritzwol.given ip = None → name ≠ "" →
       (∀ i other, others !! i = Some other → generic_reply fh i = Reply other) →
       Forall (names_other_host str_lower name) others →
       generic_reply fh (length others) = Reply entry →
       names_host str_lower name entry →
       entry !! "NewMACAddress" = Some X →
       length others < fuel →
       fritzwol.wake_host str_lower fuel fh
         (fritzwol.Build_Namespace mac ip (Some name)) t
       = (wake_outcome fh X,
          t ++ generic_calls 0 (S (length others)) ++ [wake_call X])).
Proof.
  split; [|split].
  - intros mac ip name Hmac.
    rewrite (wake_host_resolved str_lower fh fuel _ (VStr mac) t t);
      [reflexivity|].
    by apply resolve_mac.
  - intros mac ip name host X Hmac Hip Hreply HX.
    rewrite (wake_host_resolved str_lower fh fuel _ X t
      (t ++ [by_ip_call (VStr ip)])).
    + by rewrite <- app_assoc.
    + rewrite resolve_ip by done. rewrite Hreply. unfold getitem.
      rewrite HX. reflexivity.
  - intros mac ip name others entry X Hmac Hip Hname Hin Hothers Hentry
      Hnames HX Hfuel.
    rewrite (wake_host_resolved str_lower fh fuel _ X t
               (t ++ generic_calls 0 (S (length others)))).
    + by rewrite <- app_assoc.
    + rewrite resolve_name by done.
      replace fuel with (length others + S (fuel - S (length others))) by lia.
      unfold fritzhosts.get_generic_host_entries.
      rewrite (for_in_skips str_lower fh name others) by done.
      rewrite for_in_step.
      rewrite (next_yields fh _ entry) by done.
      rewrite (match_entry_hit str_lower name entry X) by done.
      rewrite <- app_assoc.
      replace (S (length others)) with (length others + 1) by lia.
      unfold generic_calls. rewrite seq_app, fmap_app. reflexivity.
Qed.

Lemma wake_host_resolution_witness :
  run (fritzwol.wake_host lower 3 mock.fh
         (fritzwol.Build_Namespace (Some "C0:FF:EE:C0:FF:EE") None None))
  = (Ok (), [wake_call (VStr "C0:FF:EE:C0:FF:EE")])
  ∧ run (fritzwol.wake_host lower 3 mock.fh
           (fritzwol.Build_Namespace None (Some "127.0.0.1") None))
    = (Ok (), [by_ip_call (VStr "127.0.0.1");
               wake_call (VStr "C0:FF:EE:C0:FF:EE")])
  ∧ run (fritzwol.wake_host lower 3 mock.fh
           (fritzwol.Build_Namespace None None (Some "ThisHost")))
    = (Ok (), [generic_call 0; generic_call 1;
               wake_call (VStr "C0:FF:EE:C0:FF:EE")]).
Proof.
  destruct (wake_host_resolution lower mock.fh 3 []) as (Hmac & Hip & Hname).
  unfold run. split; [|split].
  - rewrite Hmac by discriminate. reflexivity.
  - rewrite (Hip None "127.0.0.1" None
               (mock.host_entry "127.0.0.1" "thishost" "C0:FF:EE:C0:FF:EE"
                  false 3600%Z)
               (VStr "C0:FF:EE:C0:FF:EE"));
      [reflexivity|reflexivity|discriminate|reflexivity|reflexivity].
  - rewrite (Hname None None "ThisHost"
               [mock.host_entry "192.168.178.20" "otherhost"
                  "11:22:33:44:55:66" true 0%Z]
               (mock.host_entry "127.0.0.1" "thishost" "C0:FF:EE:C0:FF:EE"
                  false 3600%Z)
               (VStr "C0:FF:EE:C0:FF:EE")).
    + reflexivity.
    + reflexivity.
    + reflexivity.
    + discriminate.
    + intros [|i] other Hother; [|destruct i; discriminate].
      injection Hother as <-. reflexivity.
    + constructor; [|constructor].
      exists "otherhost". split; [reflexivity|discriminate].
    + reflexivity.
    + exists "thishost". split; reflexivity.
    + reflexivity.
    + simpl. lia.
Defined.

(** C8. The failures of the resolution.

    - IP given (no MAC) and the lookup by IP raising an ArgumentError or a
      LookUpError: [wake_host] raises a new ArgumentError whose message
      names the unknown IP, after that one lookup.
    - Name given (no MAC, no IP) and no entry of the router having that
      name up to case: [wake_host] raises an ArgumentError naming the
      unknown device, after the enumeration of all hosts.

    In both cases none of the calls made is the wake trigger. *)
Theorem wake_host_unknown_target (str_lower : string → string)
    (fh : FritzConnection) (fuel : nat) (t : trace) :
  (∀ mac ip name e,
     fritzwol.given mac = None → ip ≠ "" →
     by_ip_reply fh (VStr ip) = Fault e →
     (∃ msg, e = FritzArgumentError msg ∨ e = FritzLookUpError msg) →
     ∃ calls,
       fritzwol.wake_host str_lower fuel fh
         (fritzwol.Build_Namespace mac (Some ip) name) t
       = (Raise (FritzArgumentError ("Error: unknown IP " +:+ ip)), t ++ calls)
       ∧ calls = [by_ip_call (VStr ip)]
       ∧ Forall (λ call, is_wake_call call = false) calls)
  ∧ (∀ mac ip name hosts,
       fritzwol.given mac = None → fritzwol.given ip = None → name ≠ "" →
       reports_hosts fh hosts →
       Forall (names_other_host str_lower name) hosts →
       length hosts < fuel →
       ∃ calls,
         fritzwol.wake_host str_lower fuel fh
           (fritzwol.Build_Namespace mac ip (Some name)) t
         = (Raise (FritzArgumentError
                     ("Error: unknown device name '" +:+ name +:+ "'")),
            t ++ calls)
         ∧ calls = generic_calls 0 (S (length hosts))
         ∧ Forall (λ call, is_wake_call call = false) calls).
Proof.
  split.
  - intros mac ip name e Hmac Hip Hreply He.
    exists [by_ip_call (VStr ip)]. split; [|split; [reflexivity|]].
    + apply wake_host_unresolved. rewrite resolve_ip by done.
      rewrite Hreply. destruct He as [msg [-> | ->]]; reflexivity.
    + constructor; [reflexivity|constructor].
  - intros mac ip name hosts Hmac Hip Hname [Hin (e & Hout & He)] Hothers Hfuel.
    exists (generic_calls 0 (S (length hosts))). split; [|split; [reflexivity|]].
    + apply wake_host_unresolved. rewrite resolve_name by done.
      replace fuel with (length hosts + S (fuel - S (length hosts))) by lia.
      unfold fritzhosts.get_generic_host_entries.
      rewrite (for_in_skips str_lower fh name hosts) by done.
      rewrite for_in_step.
      rewrite (next_stops fh _ e) by done.
      rewrite <- app_assoc.
      replace (S (length hosts)) with (length hosts + 1) by lia.
      unfold generic_calls. rewrite seq_app, fmap_app. reflexivity.
    + unfold generic_calls. apply Forall_fmap, Forall_forall.
      intros i _. reflexivity.
Qed.

Lemma wake_host_unknown_target_witness :
  run (fritzwol.wake_host lower 3 mock.fh
         (fritzwol.Build_Namespace None (Some "10.0.0.1") None))
  = (Raise (FritzArgumentError "Error: unknown IP 10.0.0.1"),
     [by_ip_call (VStr "10.0.0.1")])
  ∧ run (fritzwol.wake_host lower 3 mock.fh
           (fritzwol.Build_Namespace None None (Some "nohost")))
    = (Raise (FritzArgumentError "Error: unknown device name 'nohost'"),
       [generic_call 0; generic_call 1; generic_call 2]).
Proof.
  destruct (wake_host_unknown_target lower mock.fh 3 []) as [Hip Hname].
  unfold run. split.
  - destruct (Hip None "10.0.0.1" None (FritzLookUpError "714"))
      as (calls & Hrun & -> & _);
      [reflexivity|discriminate|reflexivity|eauto|exact Hrun].
  - destruct (Hname None None "nohost" mock.two_hosts)
      as (calls & Hrun & -> & _).
    + reflexivity.
    + reflexivity.
    + discriminate.
    + apply mock_router_reports_hosts.
    + repeat constructor.
      * exists "otherhost". split; [reflexivity|discriminate].
      * exists "thishost". split; [reflexivity|discriminate].
    + simpl. lia.
    + exact Hrun.
Defined.

(** ** [parse_call_forwarding_list] *)

Section CallForwarding.
Import fritzcallforwarding.
Variable int_of_str : string → option Z.

Lemma parse_item_well_formed (filter_blocked : bool) (item : ET.Element) :
  well_formed int_of_str item →
  parse_item int_of_str filter_blocked item
  = Ok (if filter_blocked && bool_decide (blocked item) then None
        else Some (item_record int_of_str item)).
Proof.
  intros [Hchildren Henable].
  unfold item_children in Hchildren. rewrite !Forall_cons in Hchildren.
  destruct Hchildren
    as ([uid Huid] & [en Hen] & [ty Hty] & [num Hnum] & [to Hto] & _).
  assert (blocked item ↔ ET.text to = None) as Hblocked.
  { unfold blocked, child_text. rewrite Hto. reflexivity. }
  unfold item_record, child_text in *.
  unfold parse_item. rewrite Huid, Hen, Hty, Hnum, Hto.
  rewrite Hen in Henable. simpl in *.
  destruct (ET.text en) as [s|]; simpl in *; [|by destruct Henable].
  destruct (int_of_str s) as [z|]; simpl in *; [|by destruct Henable].
  destruct filter_blocked; simpl; [|reflexivity].
  destruct (ET.text to) as [number|]; simpl.
  - rewrite bool_decide_eq_false_2; [reflexivity|].
    rewrite Hblocked. discriminate.
  - rewrite bool_decide_eq_true_2; [reflexivity|].
    rewrite Hblocked. reflexivity.
Qed.

Lemma parse_item_ill_formed (filter_blocked : bool) (item : ET.Element) :
  ¬ well_formed int_of_str item →
  ∃ e, parse_item int_of_str filter_blocked item = Raise e ∧ is_item_error e.
Proof.
  intros Hill. unfold parse_item, is_item_error.
  destruct (ET.find item "DeflectionId") as [uid|] eqn:Huid; simpl; [|eauto].
  destruct (ET.find item "Enable") as [en|] eqn:Hen; simpl; [|eauto].
  destruct (ET.text en) as [s|] eqn:Hs; simpl; [|eauto].
  destruct (int_of_str s) as [z|] eqn:Hz; simpl; [|eauto].
  destruct (ET.find item "Type") as [ty|] eqn:Hty; simpl; [|eauto].
  destruct (ET.find item "Number") as [num|] eqn:Hnum; simpl; [|eauto].
  destruct (ET.find item "DeflectionToNumber") as [to|] eqn:Hto; simpl; [|eauto].
  exfalso. apply Hill. split.
  - unfold item_children. rewrite !Forall_cons.
    rewrite Huid, Hen, Hty, Hnum, Hto. eauto 10.
  - unfold child_text. rewrite Hen. simpl. rewrite Hs. simpl. rewrite Hz. eauto.
Qed.

Lemma parse_items_well_formed (filter_blocked : bool)
    (items : list ET.Element) (call_forwardings : list dict) :
  Forall (well_formed int_of_str) items →
  parse_items int_of_str filter_blocked items call_forwardings
  = Ok (call_forwardings
        ++ (item_record int_of_str <$> kept_items filter_blocked items)).
Proof.
  intros Hitems. revert call_forwardings.
  induction Hitems as [|item items Hitem _ IH]; intros call_forwardings.
  - simpl. destruct filter_blocked; simpl; by rewrite app_nil_r.
  - cbn [parse_items]. rewrite parse_item_well_formed by done. simpl.
    rewrite IH. unfold kept_items.
    destruct filter_blocked; simpl.
    + rewrite filter_cons. destruct (decide (blocked item)) as [Hb|Hb].
      * rewrite bool_decide_eq_true_2 by done.
        rewrite decide_False by tauto. reflexivity.
      * rewrite bool_decide_eq_false_2 by done.
        rewrite decide_True by done. by rewrite fmap_cons, <- app_assoc.
    + by rewrite <- app_assoc.
Qed.

Lemma parse_items_ill_formed (filter_blocked : bool)
    (items : list ET.Element) (call_forwardings : list dict) :
  ¬ Forall (well_formed int_of_str) items →
  ∃ e, parse_items int_of_str filter_blocked items call_forwardings = Raise e
       ∧ is_item_error e.
Proof.
  revert call_forwardings.
  induction items as [|item items IH]; intros call_forwardings Hill.
  - destruct Hill. constructor.
  - cbn [parse_items].
    destruct (decide (well_formed int_of_str item)) as [Hitem|Hitem].
    + rewrite parse_item_well_formed by done. simpl. apply IH.
      intros Hitems. apply Hill. by constructor.
    + destruct (parse_item_ill_formed filter_blocked item Hitem)
        as (e & -> & He). simpl. eauto.
Qed.

Lemma filter_complement_length {A} (P : A → Prop) `{!∀ x, Decision (P x)}
    (l : list A) :
  length (filter P l) + length (filter (λ x, ¬ P x) l) = length l.
Proof.
  rewrite <- length_app. apply Permutation_length, filter_app_complement.
Qed.

Lemma filter_fmap_record (items : list ET.Element) :
  filter has_to_number (item_record int_of_str <$> items)
  = item_record int_of_str <$> filter (λ item, ¬ blocked item) items.
Proof.
  induction items as [|item items IH]; [reflexivity|].
  rewrite fmap_cons, !filter_cons, IH.
  assert (has_to_number (item_record int_of_str item) ↔ ¬ blocked item) as Hiff.
  { unfold has_to_number, blocked, item_record.
    destruct (child_text item "DeflectionToNumber"); simpl.
    - split; [discriminate|]. intros _. vm_compute. discriminate.
    - split; [intros H; exfalso; apply H; vm_compute; reflexivity|].
      intros H. by destruct H. }
  destruct (decide (has_to_number (item_record int_of_str item)));
    destruct (decide (¬ blocked item)); try tauto; reflexivity.
Qed.

End CallForwarding.

(** C10. [parse_call_forwarding_list] is partial on well-formed XML: it
    returns a list exactly when every [Item] of the root carries the five
    children DeflectionId, Enable, Type, Number and DeflectionToNumber and
    has an [Enable] text that [int] accepts.  When some [Item] lacks a
    child or has another [Enable] text, the function raises (an
    AttributeError for the lookup on [None], a TypeError or a ValueError
    for the failed [int]); the item is not skipped and no partial list is
    returned. *)
Theorem parse_call_forwarding_list_partial
    (int_of_str : string → option Z)
    (fromstring : string → reply ET.Element) (blob : string)
    (root : ET.Element) (filter_blocked : bool) :
  fromstring blob = Reply root →
  ((∃ records,
      fritzcallforwarding.parse_call_forwarding_list int_of_str fromstring blob
        filter_blocked = Ok records)
   ↔ Forall (well_formed int_of_str) (ET.findall root "Item"))
  ∧ (¬ Forall (well_formed int_of_str) (ET.findall root "Item") →
     ∃ e, fritzcallforwarding.parse_call_forwarding_list int_of_str
            fromstring blob filter_blocked = Raise e
          ∧ is_item_error e)
  ∧ (∀ item, ¬ well_formed int_of_str item →
     ∃ e, fritzcallforwarding.parse_item int_of_str filter_blocked item
          = Raise e
          ∧ is_item_error e).
Proof.
  intros Hroot. unfold fritzcallforwarding.parse_call_forwarding_list.
  rewrite Hroot. simpl.
  assert (¬ Forall (well_formed int_of_str) (ET.findall root "Item") →
          ∃ e, fritzcallforwarding.parse_items int_of_str filter_blocked
                 (ET.findall root "Item") [] = Raise e
               ∧ is_item_error e) as Hill
    by apply parse_items_ill_formed.
  split; [split|split].
  - intros [records Hrun].
    destruct (decide (Forall (well_formed int_of_str) (ET.findall root "Item")))
      as [Hitems|Hitems]; [assumption|].
    destruct (Hill Hitems) as (e & He & _). congruence.
  - intros Hitems. rewrite parse_items_well_formed by assumption. eauto.
  - exact Hill.
  - intros item. apply parse_item_ill_formed.
Qed.

Lemma parse_call_forwarding_list_partial_witness :
  (∃ records,
     fritzcallforwarding.parse_call_forwarding_list py_int_of_string
       mock.fromstring "three_items" true = Ok records)
  ∧ (∃ e,
       fritzcallforwarding.parse_call_forwarding_list py_int_of_string
         mock.fromstring "broken_items" true = Raise e
       ∧ is_item_error e).
Proof.
  split.
  - apply (parse_call_forwarding_list_partial
             py_int_of_string mock.fromstring "three_items" mock.three_items
               true);
      [reflexivity|].
    apply (bool_decide_unpack _). vm_compute. exact I.
  - apply (parse_call_forwarding_list_partial
             py_int_of_string mock.fromstring "broken_items" mock.broken_items
               true);
      [reflexivity|].
    apply (bool_decide_unpack _). vm_compute. exact I.
Defined.

(** C2, as the claim states it, fails: a document with three [Item]
    elements, each with the five children, exactly one of which has a
    [DeflectionToNumber] without text, need not give two and three records.
    When the [Enable] of an item has no text, [int] raises a TypeError for
    either value of [filter_blocked]. *)
Lemma parse_three_items_may_raise :
  ¬ (∃ int_of_str : string → option Z,
       ∀ (fromstring : string → reply ET.Element) (blob : string)
         (root : ET.Element),
         fromstring blob = Reply root →
         length (ET.findall root "Item") = 3 →
         Forall (λ item,
                   Forall (λ name, is_Some (ET.find item name)) item_children)
                (ET.findall root "Item") →
         length (filter blocked (ET.findall root "Item")) = 1 →
         ∃ all kept,
           fritzcallforwarding.parse_call_forwarding_list int_of_str
             fromstring blob false = Ok all
           ∧ fritzcallforwarding.parse_call_forwarding_list int_of_str
               fromstring blob true = Ok kept
           ∧ length all = 3
           ∧ length kept = 2).
Proof.
  intros [int_of_str Hclaim].
  destruct (Hclaim mock.fromstring "enable_without_text"
              mock.enable_without_text)
    as (all & kept & Hall & _).
  - reflexivity.
  - reflexivity.
  - apply (bool_decide_unpack _). vm_compute. exact I.
  - vm_compute. reflexivity.
  - unfold fritzcallforwarding.parse_call_forwarding_list in Hall.
    simpl in Hall. unfold fritzcallforwarding.parse_item in Hall.
    simpl in Hall.
    destruct (int_of_str "1"); simpl in Hall; [|discriminate].
    destruct (int_of_str "0"); simpl in Hall; discriminate.
Qed.

Example parse_enable_without_text :
  fritzcallforwarding.parse_call_forwarding_list py_int_of_string
    mock.fromstring
    "enable_without_text" true = Raise TypeError
  ∧ fritzcallforwarding.parse_call_forwarding_list py_int_of_string
    mock.fromstring
      "enable_without_text" false = Raise TypeError.
Proof. split; vm_compute; reflexivity. Qed.

(** C2, amended. For a document whose root has three [Item] elements, each
    carrying the five children and an [Enable] text that [int] accepts,
    exactly one of which has a [DeflectionToNumber] without text: with
    [filter_blocked=False] the parser returns three records, the records of
    the items in document order; with [filter_blocked=True] it returns two
    records, the records of the items that have a destination number, in
    document order; these two are the records of the former list whose
    [to_number] is not [None]. *)
Theorem parse_call_forwarding_list_three_items
    (int_of_str : string → option Z)
    (fromstring : string → reply ET.Element) (blob : string)
    (root : ET.Element) :
  fromstring blob = Reply root →
  length (ET.findall root "Item") = 3 →
  Forall (well_formed int_of_str) (ET.findall root "Item") →
  length (filter blocked (ET.findall root "Item")) = 1 →
  ∃ all kept,
    fritzcallforwarding.parse_call_forwarding_list int_of_str fromstring blob
      false = Ok all
    ∧ fritzcallforwarding.parse_call_forwarding_list int_of_str fromstring blob
      true = Ok kept
    ∧ length all = 3
    ∧ length kept = 2
    ∧ all = item_record int_of_str <$> ET.findall root "Item"
    ∧ kept = item_record int_of_str <$> filter (λ item, ¬ blocked item)
      (ET.findall root "Item")
    ∧ kept = filter has_to_number all
    ∧ kept `sublist_of` all.
Proof.
  intros Hroot Hthree Hitems Hone.
  exists (item_record int_of_str <$> ET.findall root "Item"),
         (item_record int_of_str <$> filter (λ item, ¬ blocked item)
           (ET.findall root "Item")).
  unfold fritzcallforwarding.parse_call_forwarding_list.
  rewrite Hroot. simpl.
  rewrite !parse_items_well_formed by assumption. simpl.
  pose proof (filter_complement_length blocked (ET.findall root "Item")) as Hsum.
  repeat split.
  - by rewrite length_fmap.
  - rewrite length_fmap. lia.
  - symmetry. apply filter_fmap_record.
  - rewrite <- filter_fmap_record. apply sublist_filter.
Qed.

Lemma parse_call_forwarding_list_three_items_witness :
  ∃ all kept,
    fritzcallforwarding.parse_call_forwarding_list py_int_of_string
      mock.fromstring "three_items" false = Ok all
    ∧ fritzcallforwarding.parse_call_forwarding_list py_int_of_string
        mock.fromstring "three_items" true = Ok kept
    ∧ length all = 3
    ∧ length kept = 2.
Proof.
  destruct (parse_call_forwarding_list_three_items
              py_int_of_string mock.fromstring "three_items" mock.three_items)
    as (all & kept & Hall & Hkept & Hthree & Htwo & _).
  - reflexivity.
  - reflexivity.
  - apply (bool_decide_unpack _). vm_compute. exact I.
  - vm_compute. reflexivity.
  - exists all, kept. auto.
Defined.

(** C6, as the claim states it, fails: the [enabled] value of a record is
    not coerced to a boolean.  For an item whose [Enable] text is [2] the
    parser returns the record with [enabled = 2], an [int]. *)
Lemma parse_enabled_not_bool :
  ¬ (∃ int_of_str : string → option Z,
       int_of_str "2" = Some 2%Z
       ∧ ∀ (fromstring : string → reply ET.Element) (blob : string)
           (filter_blocked : bool) (records : list dict) (record : dict),
           fritzcallforwarding.parse_call_forwarding_list int_of_str
             fromstring blob filter_blocked = Ok records →
           record ∈ records →
           ∃ b, record !! "enabled" = Some (VBool b)).
Proof.
  intros (int_of_str & Htwo & Hbool).
  destruct (Hbool mock.fromstring "enable_two" true
              [ {[ "uid" := VStr "0";
                   "from_number" := VStr "0301234567";
                   "to_number" := VStr "0307654321";
                   "connection_type" := VStr "fromNumber";
                   "enabled" := VInt 2 ]} ]
              {[ "uid" := VStr "0";
                 "from_number" := VStr "0301234567";
                 "to_number" := VStr "0307654321";
                 "connection_type" := VStr "fromNumber";
                 "enabled" := VInt 2 ]})
    as [b Hb].
  - unfold fritzcallforwarding.parse_call_forwarding_list. simpl.
    unfold fritzcallforwarding.parse_item. simpl. rewrite Htwo. reflexivity.
  - apply list_elem_of_here.
  - vm_compute in Hb. discriminate.
Qed.

(** What the parser returns for that document. *)
Example parse_enable_two :
  fritzcallforwarding.parse_call_forwarding_list py_int_of_string
    mock.fromstring "enable_two" true
  = Ok [ {[ "uid" := VStr "0";
            "from_number" := VStr "0301234567";
            "to_number" := VStr "0307654321";
            "connection_type" := VStr "fromNumber";
            "enabled" := VInt 2 ]} ].
Proof. vm_compute. reflexivity. Qed.

(** C6, amended. Every record the parser returns is the record of an
    [Item] of the root, and its [enabled] value is the integer that [int]
    makes of the text of the [Enable] child of that item; it is an [int],
    not a [bool]. *)
Theorem parse_enabled_is_int
    (int_of_str : string → option Z)
    (fromstring : string → reply ET.Element) (blob : string)
    (root : ET.Element) (filter_blocked : bool) (records : list dict) :
  fromstring blob = Reply root →
  fritzcallforwarding.parse_call_forwarding_list int_of_str fromstring blob
    filter_blocked
  = Ok records →
  Forall (λ record : dict,
            ∃ item enable s z,
              item ∈ ET.findall root "Item"
              ∧ record = item_record int_of_str item
              ∧ ET.find item "Enable" = Some enable
              ∧ ET.text enable = Some s
              ∧ int_of_str s = Some z
              ∧ record !! "enabled" = Some (VInt z)
              ∧ is_bool (VInt z) = false)
         records.
Proof.
  intros Hroot Hrun.
  assert (Forall (well_formed int_of_str) (ET.findall root "Item")) as Hitems.
  { destruct (decide (Forall (well_formed int_of_str) (ET.findall root "Item")))
      as [Hitems|Hitems]; [assumption|].
    unfold fritzcallforwarding.parse_call_forwarding_list in Hrun.
    rewrite Hroot in Hrun. simpl in Hrun.
    destruct (parse_items_ill_formed int_of_str filter_blocked _ [] Hitems)
      as (e & He & _). congruence. }
  unfold fritzcallforwarding.parse_call_forwarding_list in Hrun.
  rewrite Hroot in Hrun. simpl in Hrun.
  rewrite parse_items_well_formed in Hrun by assumption.
  injection Hrun as <-. simpl.
  apply Forall_fmap, Forall_forall. intros item Hitem.
  assert (item ∈ ET.findall root "Item") as Hin.
  { unfold kept_items in Hitem. destruct filter_blocked; [|assumption].
    apply list_elem_of_filter in Hitem. tauto. }
  rewrite Forall_forall in Hitems. destruct (Hitems item Hin) as [_ Henable].
  unfold child_text in Henable.
  destruct (ET.find item "Enable") as [enable|] eqn:Hfind;
    simpl in Henable; [|by destruct Henable].
  destruct (ET.text enable) as [s|] eqn:Hs;
    simpl in Henable; [|by destruct Henable].
  destruct (int_of_str s) as [z|] eqn:Hz; [|by destruct Henable].
  exists item, enable, s, z. simpl. repeat split; try assumption.
  unfold item_record, child_text. rewrite Hfind. simpl. rewrite Hs. simpl.
  rewrite Hz. vm_compute. reflexivity.
Qed.

Lemma parse_enabled_is_int_witness :
  Forall (λ record : dict, ∃ z, record !! "enabled" = Some (VInt z))
    (item_record py_int_of_string
       <$> kept_items true (ET.findall mock.three_items "Item")).
Proof.
  eapply Forall_impl.
  - apply (parse_enabled_is_int py_int_of_string mock.fromstring "three_items"
             mock.three_items true).
    + reflexivity.
    + vm_compute. reflexivity.
  - simpl. intros record (item & enable & s & z & _ & _ & _ & _ & _ & Hz & _).
    eauto.
Defined.

(** * Further properties *)

(** ** Enumerations that the router breaks off *)

Section BrokenEnumeration.
Import fritzhosts.
Variable fc : FritzConnection.

Lemma list_of_prefix (hosts : list dict) (j fuel k : nat) (t : trace) :
  answers_hosts fc hosts →
  k + j = length hosts →
  list_of fc (j + fuel) (GenSuspended k) t
  = match list_of fc fuel (GenSuspended (length hosts))
            (t ++ generic_calls k j) with
    | (Ok rest, t') => (Ok (drop k hosts ++ rest), t')
    | (Raise e, t') => (Raise e, t')
    | (OutOfFuel, t') => (OutOfFuel, t')
    end.
Proof.
  intros Hin. revert k t. induction j as [|j IH]; intros k t Hk.
  - rewrite Nat.add_0_r in Hk. subst k. simpl.
    unfold generic_calls. simpl. rewrite app_nil_r, drop_all.
    destruct (list_of fc fuel (GenSuspended (length hosts)) t) as [[rest|e|] t'];
      reflexivity.
  - assert (k < length hosts) as Hlt by lia.
    destruct (lookup_lt_is_Some_2 hosts k Hlt) as [host Hhost].
    rewrite Nat.add_succ_l, list_of_step.
    rewrite (next_yields fc k host) by auto.
    rewrite IH by lia.
    rewrite (generic_calls_cons k), <- app_assoc. simpl.
    rewrite (drop_S _ _ _ Hhost).
    destruct (list_of fc fuel (GenSuspended (length hosts))
                (t ++ generic_call k :: generic_calls (S k) j))
      as [[rest|e|] t']; reflexivity.
Qed.

Lemma generic_calls_snoc (count : nat) :
  generic_calls 0 (S count) = generic_calls 0 count ++ [generic_call count].
Proof.
  unfold generic_calls. replace (S count) with (count + 1) by lia.
  rewrite seq_app, fmap_app. reflexivity.
Qed.

Lemma get_hosts_info_loop_prefix (hosts : list dict) (j fuel k : nat)
    (result : list dict) (t : trace) :
  answers_hosts fc hosts →
  Forall has_vendor_fields hosts →
  k + j = length hosts →
  ∃ records,
    Forall2 host_record (drop k hosts) records
    ∧ get_hosts_info_loop fc (j + fuel) k result t
      = get_hosts_info_loop fc fuel (length hosts) (result ++ records)
          (t ++ generic_calls k j).
Proof.
  intros Hin Hfields. revert k result t.
  induction j as [|j IH]; intros k result t Hk.
  - rewrite Nat.add_0_r in Hk. subst k. exists []. rewrite drop_all.
    split; [constructor|]. simpl. unfold generic_calls. simpl.
    by rewrite !app_nil_r.
  - assert (k < length hosts) as Hlt by lia.
    destruct (lookup_lt_is_Some_2 hosts k Hlt) as [host Hhost].
    destruct (host_info_total host) as [record Hrecord].
    { eapply Forall_lookup_1; eauto. }
    destruct (IH (S k) (result ++ [record]) (t ++ [generic_call k]))
      as (records & Hrecords & Hrun); [lia|].
    exists (record :: records). split.
    + rewrite (drop_S _ _ _ Hhost). constructor; [|assumption].
      by apply host_info_sound.
    + rewrite Nat.add_succ_l, get_hosts_info_loop_step.
      rewrite (Hin _ _ Hhost), Hrecord, Hrun.
      rewrite (generic_calls_cons k), <- !app_assoc. reflexivity.
Qed.

Lemma host_info_first_missing (host : dict) (key : string) :
  first_missing_field host = Some key → host_info host = Raise (KeyError key).
Proof.
  unfold first_missing_field, field_names, host_info, getitem.
  cbn [list_find snd].
  repeat
    (match goal with
     | |- context [decide (host !! ?k = None)] =>
         destruct (host !! k) as [?|] eqn:?;
         [rewrite decide_False by discriminate
         |rewrite decide_True by reflexivity; simpl; by intros [= <-]]
     end; cbn [mbind result_bind fmap option_fmap option_map]).
  simpl. discriminate.
Qed.

End BrokenEnumeration.

(** X1. When the router answers the indices [0..n-1] and raises, at index
    [n], an exception that is not an IndexError, the enumeration of
    [get_generic_host_entries()] raises that exception to its consumer
    after the calls for [0..n]: the [n] hosts already yielded are not
    returned as a list. *)
Theorem get_generic_host_entries_propagates
    (fc : FritzConnection) (hosts : list dict) (e : exn) (fuel : nat)
    (t : trace) :
  answers_hosts fc hosts →
  generic_reply fc (length hosts) = Fault e →
  is_IndexError e = false →
  length hosts < fuel →
  fritzhosts.list_of fc fuel fritzhosts.get_generic_host_entries t
  = (Raise e, t ++ generic_calls 0 (S (length hosts))).
Proof.
  intros Hin Hout He Hfuel.
  replace fuel with (length hosts + S (fuel - S (length hosts))) by lia.
  unfold fritzhosts.get_generic_host_entries.
  rewrite (list_of_prefix fc hosts) by done.
  rewrite list_of_step, (next_raises fc _ e) by done.
  rewrite generic_calls_snoc, app_assoc. reflexivity.
Qed.

Lemma get_generic_host_entries_propagates_witness :
  fritzhosts.list_of mock.fh 3 fritzhosts.get_generic_host_entries []
  = (Ok mock.two_hosts, generic_calls 0 3)
  ∧ fritzhosts.list_of mock.broken_fh 3 fritzhosts.get_generic_host_entries []
    = (Raise (FritzAuthorizationError "401"), generic_calls 0 3).
Proof.
  split; [vm_compute; reflexivity|].
  apply (get_generic_host_entries_propagates mock.broken_fh mock.two_hosts
           (FritzAuthorizationError "401") 3 []).
  - intros [|[|i]] host Hhost; simpl in Hhost; try discriminate;
      injection Hhost as <-; reflexivity.
  - reflexivity.
  - reflexivity.
  - simpl. lia.
Defined.

(** X2. Under the same conditions, the earlier raw dicts carrying the seven
    vendor-named fields, [get_hosts_info()] and [get_active_hosts()] raise
    that exception after the calls for [0..n]; the records built so far
    are dropped. *)
Theorem get_hosts_info_propagates
    (fc : FritzConnection) (hosts : list dict) (e : exn) (fuel : nat)
    (t : trace) :
  answers_hosts fc hosts →
  Forall has_vendor_fields hosts →
  generic_reply fc (length hosts) = Fault e →
  is_IndexError e = false →
  length hosts < fuel →
  fritzhosts.get_hosts_info fc fuel t
  = (Raise e, t ++ generic_calls 0 (S (length hosts)))
  ∧ fritzhosts.get_active_hosts fc fuel t
    = (Raise e, t ++ generic_calls 0 (S (length hosts))).
Proof.
  intros Hin Hfields Hout He Hfuel.
  assert (fritzhosts.get_hosts_info fc fuel t
          = (Raise e, t ++ generic_calls 0 (S (length hosts)))) as Hrun.
  { unfold fritzhosts.get_hosts_info.
    replace fuel with (length hosts + S (fuel - S (length hosts))) by lia.
    destruct (get_hosts_info_loop_prefix fc hosts (length hosts)
                (S (fuel - S (length hosts))) 0 [] t)
      as (records & _ & ->); [done..|].
    rewrite get_hosts_info_loop_step, Hout, He.
    rewrite generic_calls_snoc, app_assoc. reflexivity. }
  split; [exact Hrun|]. by apply get_active_hosts_raises.
Qed.

Lemma get_hosts_info_propagates_witness :
  fritzhosts.get_hosts_info mock.broken_fh 3 []
  = (Raise (FritzAuthorizationError "401"), generic_calls 0 3).
Proof.
  apply (get_hosts_info_propagates mock.broken_fh mock.two_hosts
           (FritzAuthorizationError "401") 3 []).
  - intros [|[|i]] host Hhost; simpl in Hhost; try discriminate;
      injection Hhost as <-; reflexivity.
  - repeat constructor; vm_compute; eauto.
  - reflexivity.
  - reflexivity.
  - simpl. lia.
Defined.

(** X3. When the raw dict at index [n] is the first one that lacks a
    vendor-named field, [get_hosts_info()] raises a KeyError for the first
    missing field in the order ip, name, mac, status, interface type,
    address source, lease time, after the calls for [0..n]; the hosts after
    it are not fetched and no list is returned. *)
Theorem get_hosts_info_missing_field
    (fc : FritzConnection) (hosts : list dict) (bad : dict) (key : string)
    (fuel : nat) (t : trace) :
  answers_hosts fc hosts →
  Forall has_vendor_fields hosts →
  generic_reply fc (length hosts) = Reply bad →
  first_missing_field bad = Some key →
  length hosts < fuel →
  fritzhosts.get_hosts_info fc fuel t
  = (Raise (KeyError key), t ++ generic_calls 0 (S (length hosts))).
Proof.
  intros Hin Hfields Hbad Hkey Hfuel.
  unfold fritzhosts.get_hosts_info.
  replace fuel with (length hosts + S (fuel - S (length hosts))) by lia.
  destruct (get_hosts_info_loop_prefix fc hosts (length hosts)
              (S (fuel - S (length hosts))) 0 [] t)
    as (records & _ & ->); [done..|].
  rewrite get_hosts_info_loop_step, Hbad.
  rewrite (host_info_first_missing bad key Hkey).
  rewrite generic_calls_snoc, app_assoc. reflexivity.
Qed.

Lemma get_hosts_info_missing_field_witness :
  fritzhosts.get_hosts_info (mock.router mock.nameless_hosts mock.no_mesh) 4 []
  = (Raise (KeyError "NewHostName"), generic_calls 0 2).
Proof.
  apply (get_hosts_info_missing_field
           (mock.router mock.nameless_hosts mock.no_mesh)
           [mock.host_entry "192.168.178.20" "otherhost" "11:22:33:44:55:66"
              true 0%Z]
           (delete "NewHostName"
              (mock.host_entry "127.0.0.1" "thishost" "C0:FF:EE:C0:FF:EE"
                 false 3600%Z))
           "NewHostName" 4 []).
  - intros [|i] host Hhost; simpl in Hhost; [|destruct i; discriminate].
    injection Hhost as <-. reflexivity.
  - repeat constructor; vm_compute; eauto.
  - reflexivity.
  - vm_compute. reflexivity.
  - simpl. lia.
Defined.

(** ** Failures of the wake-on-LAN resolution *)

Section WakeHostFailures.
Import fritzhosts fritzwol.
Variable str_lower : string → string.
Variable fh : FritzConnection.

Lemma scan_prefix (name : string) (others : list dict) (fuel : nat) (t : trace) :
  answers_hosts fh others →
  Forall (names_other_host str_lower name) others →
  length others < fuel →
  for_in fh fuel get_generic_host_entries
    (match_entry str_lower (str_lower name)) t
  = for_in fh (S (fuel - S (length others))) (GenSuspended (length others))
      (match_entry str_lower (str_lower name))
        (t ++ generic_calls 0 (length others)).
Proof.
  intros Hin Hothers Hfuel.
  replace fuel with (length others + S (fuel - S (length others))) at 1 by lia.
  unfold get_generic_host_entries.
  by rewrite (for_in_skips str_lower fh name others).
Qed.

Lemma scan_exhausted (name : string) (hosts : list dict) (fuel : nat) (t : trace) :
  reports_hosts fh hosts →
  Forall (names_other_host str_lower name) hosts →
  length hosts < fuel →
  for_in fh fuel get_generic_host_entries
    (match_entry str_lower (str_lower name)) t
  = (Ok None, t ++ generic_calls 0 (S (length hosts))).
Proof.
  intros [Hin (e & Hout & He)] Hothers Hfuel.
  rewrite (scan_prefix name hosts) by done.
  rewrite for_in_step, (next_stops fh _ e) by done.
  rewrite generic_calls_snoc, app_assoc. reflexivity.
Qed.

(** The scan reaches an entry and the body raises on it. *)
Lemma scan_raises (name : string) (others : list dict) (entry : dict)
    (e : exn) (fuel : nat) (t : trace) :
  answers_hosts fh others →
  Forall (names_other_host str_lower name) others →
  generic_reply fh (length others) = Reply entry →
  (∀ t', match_entry str_lower (str_lower name) entry t' = (Raise e, t')) →
  length others < fuel →
  for_in fh fuel get_generic_host_entries
    (match_entry str_lower (str_lower name)) t
  = (Raise e, t ++ generic_calls 0 (S (length others))).
Proof.
  intros Hin Hothers Hentry Hbody Hfuel.
  rewrite (scan_prefix name others) by done.
  rewrite for_in_step, (next_yields fh _ entry) by done.
  rewrite Hbody, generic_calls_snoc, app_assoc. reflexivity.
Qed.

Lemma wake_host_name_raises (fuel : nat) (mac ip : option string)
    (name : string) (e : exn) (t t' : trace) :
  given mac = None → given ip = None → name ≠ "" →
  for_in fh fuel get_generic_host_entries
    (match_entry str_lower (str_lower name)) t
  = (Raise e, t') →
  wake_host str_lower fuel fh (Build_Namespace mac ip (Some name)) t =
    (Raise e, t').
Proof.
  intros Hmac Hip Hname Hscan. apply wake_host_unresolved.
  rewrite resolve_name by done. rewrite Hscan. reflexivity.
Qed.

End WakeHostFailures.

(** X4. With no target given (each of the three options is [None] or the
    empty string), [wake_host] makes no call at all and fails with an
    UnboundLocalError for [mac]: none of the three branches binds it. *)
Theorem wake_host_without_target
    (str_lower : string → string) (fh : FritzConnection) (fuel : nat)
    (mac ip name : option string)
    (t : trace) :
  fritzwol.given mac = None →
  fritzwol.given ip = None →
  fritzwol.given name = None →
  fritzwol.wake_host str_lower fuel fh (fritzwol.Build_Namespace mac ip name) t
  = (Raise (UnboundLocalError "mac"), t).
Proof.
  intros Hmac Hip Hname. unfold fritzwol.wake_host, fritzwol.resolve.
  cbn [fritzwol.device_mac_address fritzwol.device_ip_address
       fritzwol.device_name].
  rewrite Hmac, Hip, Hname. reflexivity.
Qed.

Lemma wake_host_without_target_witness :
  run (fritzwol.wake_host lower 3 mock.fh
         (fritzwol.Build_Namespace (Some "") None None))
  = (Raise (UnboundLocalError "mac"), []).
Proof.
  apply (wake_host_without_target lower mock.fh 3 (Some "") None None []);
    reflexivity.
Defined.

(** X5. IP given (no MAC): an exception of the lookup by IP that is
    neither an ArgumentError nor a LookUpError is raised unchanged, and an
    entry without the field [NewMACAddress] gives a KeyError; in both cases
    the lookup is the only call made, and the wake trigger is not called. *)
Theorem wake_host_ip_lookup_failures
    (str_lower : string → string) (fh : FritzConnection) (fuel : nat)
    (mac name : option string)
    (ip : string) (t : trace) :
  fritzwol.given mac = None →
  ip ≠ "" →
  (∀ e, by_ip_reply fh (VStr ip) = Fault e →
        is_ArgumentError_or_LookUpError e = false →
        fritzwol.wake_host str_lower fuel fh
          (fritzwol.Build_Namespace mac (Some ip) name) t
        = (Raise e, t ++ [by_ip_call (VStr ip)]))
  ∧ (∀ host, by_ip_reply fh (VStr ip) = Reply host →
             host !! "NewMACAddress" = None →
             fritzwol.wake_host str_lower fuel fh
               (fritzwol.Build_Namespace mac (Some ip) name) t
             = (Raise (KeyError "NewMACAddress"), t ++ [by_ip_call (VStr ip)])).
Proof.
  intros Hmac Hip. split.
  - intros e Hreply He. apply wake_host_unresolved.
    rewrite resolve_ip by done. rewrite Hreply, He. reflexivity.
  - intros host Hreply Hkey. apply wake_host_unresolved.
    rewrite resolve_ip by done. rewrite Hreply. unfold getitem.
    rewrite Hkey. reflexivity.
Qed.

Lemma wake_host_ip_lookup_failures_witness :
  run (fritzwol.wake_host lower 3 (mock.router mock.macless_hosts mock.no_mesh)
         (fritzwol.Build_Namespace None (Some "127.0.0.1") None))
  = (Raise (KeyError "NewMACAddress"), [by_ip_call (VStr "127.0.0.1")]).
Proof.
  refine (proj2 (wake_host_ip_lookup_failures lower
                   (mock.router mock.macless_hosts mock.no_mesh) 3 None None
                   "127.0.0.1" [] _ _)
            (delete "NewMACAddress"
               (mock.host_entry "127.0.0.1" "thishost" "C0:FF:EE:C0:FF:EE"
                  false 3600%Z)) _ _).
  - reflexivity.
  - discriminate.
  - reflexivity.
  - vm_compute. reflexivity.
Defined.

(** X6. Name given (no MAC, no IP), the entries [0..k-1] having other
    names: when entry [k] has no field [NewHostName] the scan raises a
    KeyError, when its host name is not a [str] it raises an
    AttributeError, and when it has the name looked for but no field
    [NewMACAddress] it raises a KeyError.  The scan stops there: the
    entries after [k] are not fetched, even if one of them has the name,
    and the wake trigger is not called. *)
Theorem wake_host_name_malformed_entry
    (str_lower : string → string) (fh : FritzConnection) (fuel : nat)
    (mac ip : option string)
    (name : string) (others : list dict) (entry : dict) (t : trace) :
  fritzwol.given mac = None →
  fritzwol.given ip = None →
  name ≠ "" →
  answers_hosts fh others →
  Forall (names_other_host str_lower name) others →
  generic_reply fh (length others) = Reply entry →
  length others < fuel →
  let args := fritzwol.Build_Namespace mac ip (Some name) in
  let t' := t ++ generic_calls 0 (S (length others)) in
  (entry !! "NewHostName" = None →
     fritzwol.wake_host str_lower fuel fh args t =
       (Raise (KeyError "NewHostName"), t'))
  ∧ (∀ v, entry !! "NewHostName" = Some v → (∀ s, v ≠ VStr s) →
          fritzwol.wake_host str_lower fuel fh args t =
            (Raise AttributeError, t'))
  ∧ (names_host str_lower name entry → entry !! "NewMACAddress" = None →
     fritzwol.wake_host str_lower fuel fh args t =
       (Raise (KeyError "NewMACAddress"), t')).
Proof.
  intros Hmac Hip Hname Hin Hothers Hentry Hfuel args t'.
  assert (∀ e,
            (∀ t0, fritzwol.match_entry str_lower (str_lower name) entry t0
                   = (Raise e, t0)) →
            fritzwol.wake_host str_lower fuel fh args t = (Raise e, t'))
    as Hraise.
  { intros e Hbody. apply wake_host_name_raises; [done..|].
    by apply (scan_raises str_lower fh name others entry). }
  split; [|split].
  - intros Hnone. apply Hraise. intros t0.
    cbv [fritzwol.match_entry mbind M_bind lift getitem]. rewrite Hnone.
    reflexivity.
  - intros v Hv Hnostr. apply Hraise. intros t0.
    cbv [fritzwol.match_entry mbind M_bind lift getitem]. rewrite Hv.
    destruct v as [|b|z|s]; try reflexivity. by destruct (Hnostr s).
  - intros (s & Hs & Heq) Hnomac. apply Hraise. intros t0.
    cbv [fritzwol.match_entry mbind M_bind lift getitem]. rewrite Hs. simpl.
    rewrite Heq, String.eqb_refl, Hnomac. reflexivity.
Qed.

Lemma wake_host_name_malformed_entry_witness :
  run (fritzwol.wake_host lower 4 (mock.router mock.nameless_hosts mock.no_mesh)
         (fritzwol.Build_Namespace None None (Some "thishost")))
  = (Raise (KeyError "NewHostName"), generic_calls 0 2).
Proof.
  apply (wake_host_name_malformed_entry lower
           (mock.router mock.nameless_hosts mock.no_mesh) 4 None None
           "thishost"
           [mock.host_entry "192.168.178.20" "otherhost" "11:22:33:44:55:66"
              true 0%Z]
           (delete "NewHostName"
              (mock.host_entry "127.0.0.1" "thishost" "C0:FF:EE:C0:FF:EE"
                 false 3600%Z))
           []).
  - reflexivity.
  - reflexivity.
  - discriminate.
  - intros [|i] host Hhost; simpl in Hhost; [|destruct i; discriminate].
    injection Hhost as <-. reflexivity.
  - constructor; [|constructor].
    exists "otherhost". split; [reflexivity|discriminate].
  - reflexivity.
  - simpl. lia.
  - vm_compute. reflexivity.
Defined.

(** X7. Name given (no MAC, no IP), the entries [0..k-1] having other
    names: an exception that the router raises at index [k] and that is
    not an IndexError is raised by [wake_host] unchanged (it is not turned
    into the ArgumentError of an unknown name), and the wake trigger is
    not called. *)
Theorem wake_host_name_enumeration_fault
    (str_lower : string → string) (fh : FritzConnection) (fuel : nat)
    (mac ip : option string)
    (name : string) (others : list dict) (e : exn) (t : trace) :
  fritzwol.given mac = None →
  fritzwol.given ip = None →
  name ≠ "" →
  answers_hosts fh others →
  Forall (names_other_host str_lower name) others →
  generic_reply fh (length others) = Fault e →
  is_IndexError e = false →
  length others < fuel →
  fritzwol.wake_host str_lower fuel fh
    (fritzwol.Build_Namespace mac ip (Some name)) t
  = (Raise e, t ++ generic_calls 0 (S (length others))).
Proof.
  intros Hmac Hip Hname Hin Hothers Hfault He Hfuel.
  apply wake_host_name_raises; [done..|].
  rewrite (scan_prefix str_lower fh name others) by done.
  rewrite for_in_step, (next_raises fh _ e) by done.
  rewrite generic_calls_snoc, app_assoc. reflexivity.
Qed.

Lemma wake_host_name_enumeration_fault_witness :
  run (fritzwol.wake_host lower 3 mock.broken_fh
         (fritzwol.Build_Namespace None None (Some "nohost")))
  = (Raise (FritzAuthorizationError "401"), generic_calls 0 3).
Proof.
  apply (wake_host_name_enumeration_fault lower mock.broken_fh 3 None None
    "nohost"
           mock.two_hosts (FritzAuthorizationError "401") []).
  - reflexivity.
  - reflexivity.
  - discriminate.
  - intros [|[|i]] host Hhost; simpl in Hhost; try discriminate;
      injection Hhost as <-; reflexivity.
  - repeat constructor.
    + exists "otherhost". split; [reflexivity|discriminate].
    + exists "thishost". split; [reflexivity|discriminate].
  - reflexivity.
  - reflexivity.
  - simpl. lia.
Defined.

(** X8. The name is looked up without regard to case: two names that are
    equal in lower case wake the same host after the same calls. *)
Theorem wake_host_name_case_insensitive
    (str_lower : string → string) (fh : FritzConnection) (fuel : nat)
    (mac ip : option string)
    (name1 name2 : string) (t t' : trace) :
  fritzwol.given mac = None →
  fritzwol.given ip = None →
  name1 ≠ "" → name2 ≠ "" →
  str_lower name1 = str_lower name2 →
  fritzwol.wake_host str_lower fuel fh
    (fritzwol.Build_Namespace mac ip (Some name1)) t
  = (Ok (), t') →
  fritzwol.wake_host str_lower fuel fh
    (fritzwol.Build_Namespace mac ip (Some name2)) t
  = (Ok (), t').
Proof.
  intros Hmac Hip Hname1 Hname2 Hlower Hrun.
  unfold fritzwol.wake_host in *.
  unfold mbind at 1 in Hrun. unfold M_bind at 1 in Hrun.
  unfold mbind at 1. unfold M_bind at 1.
  rewrite resolve_name in Hrun by done. rewrite resolve_name by done.
  rewrite Hlower in Hrun.
  destruct (fritzhosts.for_in fh fuel fritzhosts.get_generic_host_entries
              (fritzwol.match_entry str_lower (str_lower name2)) t)
    as [[[found|]|e|] t0]; [exact Hrun|discriminate..].
Qed.

Lemma wake_host_name_case_insensitive_witness :
  run (fritzwol.wake_host lower 3 mock.fh
         (fritzwol.Build_Namespace None None (Some "THISHOST")))
  = (Ok (), [generic_call 0; generic_call 1;
             wake_call (VStr "C0:FF:EE:C0:FF:EE")]).
Proof.
  apply (wake_host_name_case_insensitive lower mock.fh 3 None None
           "thishost" "THISHOST" []);
    [reflexivity|reflexivity|discriminate|discriminate|reflexivity|].
  vm_compute. reflexivity.
Defined.

(** ** The command [main] of [fritzwol] *)

Section MainOfWol.
Import fritzwol.
Variable str_lower : string → string.
Variable get_cli_arguments : M Namespace.
Variable get_instance : Namespace → M FritzConnection.
Variable print_header : FritzConnection → M ().
Variable print_common_exception_message : exn → M ().

Lemma main_run (fuel : nat) (args : Namespace) (fh : FritzConnection)
    (t : trace) :
  get_cli_arguments t = (Ok args, t) →
  get_instance args t = (Ok fh, t) →
  print_header fh t = (Ok (), t) →
  main str_lower get_cli_arguments get_instance print_header
    print_common_exception_message fuel t
  = match wake_host str_lower fuel fh args t with
    | (Raise e, t') =>
        if is_FritzAuthorizationError e
        then print_common_exception_message e t'
        else if is_FritzArgumentError e then (Ok (), t')
        else (Raise e, t')
    | r => r
    end.
Proof.
  intros Hargs Hfh Hheader. unfold main, execute, try_except.
  unfold mbind at 1. unfold M_bind at 1. rewrite Hargs.
  unfold mbind at 1. unfold M_bind at 1. rewrite Hfh.
  unfold mbind at 1. unfold M_bind at 1. rewrite Hheader.
  destruct (wake_host str_lower fuel fh args t) as [[[]|e|] t'];
    try reflexivity.
  destruct e; reflexivity.
Qed.

End MainOfWol.

(** X9. The command [main], its helpers returning the parsed options and
    the [FritzHosts] instance without calling the router: when the name
    given matches no host, [main] returns normally after the enumeration of
    the hosts, the ArgumentError of [wake_host] being caught, and the wake
    trigger is not called; when no target is given, the UnboundLocalError
    of [wake_host] is not caught and leaves [main]. *)
Theorem main_catches_unknown_name
    (str_lower : string → string)
    (get_cli_arguments : M fritzwol.Namespace)
    (get_instance : fritzwol.Namespace → M FritzConnection)
    (print_header : FritzConnection → M ())
    (print_common_exception_message : exn → M ())
    (fuel : nat) (args : fritzwol.Namespace) (fh : FritzConnection)
    (t : trace) :
  get_cli_arguments t = (Ok args, t) →
  get_instance args t = (Ok fh, t) →
  print_header fh t = (Ok (), t) →
  (∀ mac ip name hosts,
     args = fritzwol.Build_Namespace mac ip (Some name) →
     fritzwol.given mac = None → fritzwol.given ip = None → name ≠ "" →
     reports_hosts fh hosts →
     Forall (names_other_host str_lower name) hosts →
     length hosts < fuel →
     fritzwol.main str_lower get_cli_arguments get_instance print_header
       print_common_exception_message fuel t
     = (Ok (), t ++ generic_calls 0 (S (length hosts))))
  ∧ (∀ mac ip name,
       args = fritzwol.Build_Namespace mac ip name →
       fritzwol.given mac = None → fritzwol.given ip = None →
       fritzwol.given name = None →
       fritzwol.main str_lower get_cli_arguments get_instance print_header
         print_common_exception_message fuel t
       = (Raise (UnboundLocalError "mac"), t)).
Proof.
  intros Hargs Hfh Hheader. split.
  - intros mac ip name hosts -> Hmac Hip Hname Hreports Hothers Hfuel.
    rewrite (main_run _ _ _ _ _ fuel _ fh t Hargs Hfh Hheader).
    rewrite (wake_host_unresolved str_lower fh fuel _
               (FritzArgumentError
                  ("Error: unknown device name '" +:+ name +:+ "'"))
               t (t ++ generic_calls 0 (S (length hosts)))); [reflexivity|].
    rewrite resolve_name by done.
    rewrite (scan_exhausted str_lower fh name hosts) by done. reflexivity.
  - intros mac ip name -> Hmac Hip Hname.
    rewrite (main_run _ _ _ _ _ fuel _ fh t Hargs Hfh Hheader).
    unfold fritzwol.wake_host, fritzwol.resolve.
    cbn [fritzwol.device_mac_address fritzwol.device_ip_address
         fritzwol.device_name].
    rewrite Hmac, Hip, Hname. reflexivity.
Qed.

Lemma main_catches_unknown_name_witness :
  run (fritzwol.main lower
         (mret (fritzwol.Build_Namespace None None (Some "nohost")))
         (λ _, mret mock.fh) (λ _, mret ()) (λ _, mret ()) 3)
  = (Ok (), generic_calls 0 3).
Proof.
  refine (proj1 (main_catches_unknown_name lower
                   (mret (fritzwol.Build_Namespace None None (Some "nohost")))
                   (λ _, mret mock.fh) (λ _, mret ()) (λ _, mret ()) 3
                   (fritzwol.Build_Namespace None None (Some "nohost"))
                   mock.fh [] _ _ _)
            None None "nohost" mock.two_hosts _ _ _ _ _ _ _).
  - reflexivity.
  - reflexivity.
  - reflexivity.
  - reflexivity.
  - reflexivity.
  - reflexivity.
  - discriminate.
  - apply mock_router_reports_hosts.
  - repeat constructor.
    + exists "otherhost". split; [reflexivity|discriminate].
    + exists "thishost". split; [reflexivity|discriminate].
  - simpl. lia.
Defined.

(** ** [get_mesh_topology], when a step fails *)

(** X10. [get_mesh_topology] issues no GET when the action that answers
    the path fails or answers no path: the exception of the action, or the
    KeyError for the missing field, is raised after that single call.  An
    exception of the GET itself is raised unchanged. *)
Theorem get_mesh_topology_failures
    (fc : FritzConnection) (raw : bool) (t : trace) :
  (∀ e, mesh_reply fc = Fault e →
        fritzhosts.get_mesh_topology fc raw t = (Raise e, t ++ [mesh_call]))
  ∧ (∀ result, mesh_reply fc = Reply result →
        result !! "NewX_AVM-DE_MeshListPath" = None →
        fritzhosts.get_mesh_topology fc raw t
        = (Raise (KeyError "NewX_AVM-DE_MeshListPath"), t ++ [mesh_call]))
  ∧ (∀ result path e, mesh_reply fc = Reply result →
        result !! "NewX_AVM-DE_MeshListPath" = Some path →
        session_get fc (mesh_url fc path) = Fault e →
        fritzhosts.get_mesh_topology fc raw t
        = (Raise e, t ++ [mesh_call; EvGet (mesh_url fc path)])).
Proof.
  unfold mesh_reply, mesh_url. split; [|split].
  - intros e Hmesh.
    cbv [fritzhosts.get_mesh_topology fritzhosts._action mbind M_bind emit lift].
    rewrite Hmesh. reflexivity.
  - intros result Hmesh Hpath.
    cbv [fritzhosts.get_mesh_topology fritzhosts._action mbind M_bind emit lift
         getitem].
    rewrite Hmesh. simpl. rewrite Hpath. reflexivity.
  - intros result path e Hmesh Hpath Hget.
    cbv [fritzhosts.get_mesh_topology fritzhosts._action
         fritzhosts.session_get_ mbind M_bind emit lift getitem].
    rewrite Hmesh. simpl. rewrite Hpath, Hget. simpl.
    rewrite <- app_assoc. reflexivity.
Qed.

(** ** More on [parse_call_forwarding_list] *)

Section ParserMore.
Import fritzcallforwarding.

Lemma findall_insert (tag1 tag2 : string) (text1 text2 : option string)
    (before after : list ET.Element) (other : ET.Element) (name : string) :
  ET.tag other ≠ name →
  ET.findall (ET.mkElement tag1 text1 (before ++ other :: after)) name
  = ET.findall (ET.mkElement tag2 text2 (before ++ after)) name.
Proof.
  intros Hother. unfold ET.findall. simpl.
  rewrite !filter_app, filter_cons_False by assumption. reflexivity.
Qed.

Lemma find_app (tg : string) (tx : option string) (item : ET.Element)
    (extra : list ET.Element) (name : string) :
  is_Some (ET.find item name) →
  ET.find (ET.mkElement tg tx (ET.children item ++ extra)) name
  = ET.find item name.
Proof.
  unfold ET.find, ET.findall. simpl. rewrite filter_app.
  destruct (filter (λ c, ET.tag c = name) (ET.children item)); simpl.
  - by intros [? ?].
  - reflexivity.
Qed.

Lemma parse_call_forwarding_list_returns (int_of_str : string → option Z)
    (fromstring : string → reply ET.Element) (blob : string)
    (filter_blocked : bool) (records : list dict) :
  parse_call_forwarding_list int_of_str fromstring blob filter_blocked
  = Ok records →
  ∃ root,
    fromstring blob = Reply root
    ∧ Forall (well_formed int_of_str) (ET.findall root "Item")
    ∧ records
      = item_record int_of_str
          <$> kept_items filter_blocked (ET.findall root "Item").
Proof.
  unfold parse_call_forwarding_list.
  destruct (fromstring blob) as [root|e]; simpl; [|discriminate].
  intros Hrun. exists root. split; [reflexivity|].
  destruct (decide (Forall (well_formed int_of_str) (ET.findall root "Item")))
    as [Hitems|Hitems].
  - rewrite parse_items_well_formed in Hrun by assumption.
    injection Hrun as <-. split; [assumption|reflexivity].
  - destruct (parse_items_ill_formed int_of_str filter_blocked _ [] Hitems)
      as (e & He & _). congruence.
Qed.

Lemma item_record_lookup (int_of_str : string → option Z)
    (item : ET.Element) :
  item_record int_of_str item !! "uid"
  = Some (of_text (child_text item "DeflectionId"))
  ∧ item_record int_of_str item !! "from_number"
    = Some (of_text (child_text item "Number"))
  ∧ item_record int_of_str item !! "to_number"
    = Some (of_text (child_text item "DeflectionToNumber"))
  ∧ item_record int_of_str item !! "connection_type"
    = Some (of_text (child_text item "Type"))
  ∧ item_record int_of_str item !! "enabled"
    = Some (VInt (default 0%Z (child_text item "Enable" ≫= int_of_str))).
Proof.
  unfold item_record.
  generalize (of_text (child_text item "DeflectionId")).
  generalize (of_text (child_text item "Number")).
  generalize (of_text (child_text item "DeflectionToNumber")).
  generalize (of_text (child_text item "Type")).
  generalize (default 0%Z (child_text item "Enable" ≫= int_of_str)).
  intros z type to number uid. repeat split; vm_compute; reflexivity.
Qed.

End ParserMore.

(** X11. For a document with any number of [Item] elements, each carrying
    the five children and an [Enable] text that [int] accepts:
    [parse(blob, False)] returns one record per item, in document order,
    and [parse(blob, True)] returns exactly the records of that list whose
    [to_number] is not [None], in the same order; a root without [Item]
    gives the empty list. *)
Theorem parse_call_forwarding_list_filter
    (int_of_str : string → option Z)
    (fromstring : string → reply ET.Element) (blob : string)
    (root : ET.Element) :
  fromstring blob = Reply root →
  Forall (well_formed int_of_str) (ET.findall root "Item") →
  ∃ all,
    fritzcallforwarding.parse_call_forwarding_list int_of_str fromstring blob
      false = Ok all
    ∧ fritzcallforwarding.parse_call_forwarding_list int_of_str fromstring blob
      true
      = Ok (filter has_to_number all)
    ∧ all = item_record int_of_str <$> ET.findall root "Item"
    ∧ length all = length (ET.findall root "Item")
    ∧ (ET.findall root "Item" = [] → all = []).
Proof.
  intros Hroot Hitems. exists
    (item_record int_of_str <$> ET.findall root "Item").
  unfold fritzcallforwarding.parse_call_forwarding_list.
  rewrite Hroot. simpl.
  rewrite !parse_items_well_formed by assumption. simpl.
  rewrite filter_fmap_record, length_fmap.
  repeat split. by intros ->.
Qed.

Lemma parse_call_forwarding_list_filter_witness :
  ∃ all,
    fritzcallforwarding.parse_call_forwarding_list py_int_of_string
      mock.fromstring
      "three_items" false = Ok all
    ∧ fritzcallforwarding.parse_call_forwarding_list py_int_of_string
      mock.fromstring
        "three_items" true = Ok (filter has_to_number all).
Proof.
  destruct (parse_call_forwarding_list_filter py_int_of_string mock.fromstring
    "three_items"
              mock.three_items) as (all & Hall & Hkept & _).
  - reflexivity.
  - apply (bool_decide_unpack _). vm_compute. exact I.
  - exists all. auto.
Defined.

(** X12. Only the children of the root whose tag is [Item] are read: a
    document with one more child of another tag, anywhere among the
    children of the root, gives the same result (the same list, or the same
    exception), whatever the tag and the text of the root. *)
Theorem parse_call_forwarding_list_ignores_other_children
    (int_of_str : string → option Z)
    (fromstring : string → reply ET.Element) (blob1 blob2 : string)
    (tag1 tag2 : string) (text1 text2 : option string)
    (before after : list ET.Element) (other : ET.Element)
    (filter_blocked : bool) :
  fromstring blob1 = Reply (ET.mkElement tag1 text1 (before ++ other :: after)) →
  fromstring blob2 = Reply (ET.mkElement tag2 text2 (before ++ after)) →
  ET.tag other ≠ "Item" →
  fritzcallforwarding.parse_call_forwarding_list int_of_str fromstring blob1
    filter_blocked
  = fritzcallforwarding.parse_call_forwarding_list int_of_str fromstring blob2
    filter_blocked.
Proof.
  intros Hroot1 Hroot2 Hother.
  unfold fritzcallforwarding.parse_call_forwarding_list.
  rewrite Hroot1, Hroot2. simpl.
  by rewrite (findall_insert tag1 tag2 text1 text2).
Qed.

Lemma parse_call_forwarding_list_ignores_other_children_witness :
  fritzcallforwarding.parse_call_forwarding_list py_int_of_string
    mock.fromstring_more
    "with_comment" true
  = fritzcallforwarding.parse_call_forwarding_list py_int_of_string
    mock.fromstring_more
      "enable_two" true.
Proof.
  apply (parse_call_forwarding_list_ignores_other_children py_int_of_string
    mock.fromstring_more
           "with_comment" "enable_two" "List" "List" None None
           [] [mock.item "0" "2" "fromNumber" "0301234567" (Some "0307654321")]
           (ET.mkElement "Comment" (Some "Item") []) true).
  - reflexivity.
  - reflexivity.
  - discriminate.
Defined.

(** X13. Of several children of an [Item] with the same tag, the first one
    is read: children added after those of an item that carries the five
    children and an [Enable] text that [int] accepts do not change what the
    parser makes of it. *)
Theorem parse_item_first_child_wins
    (int_of_str : string → option Z)
    (filter_blocked : bool) (item : ET.Element) (tg : string)
    (tx : option string) (extra : list ET.Element) :
  well_formed int_of_str item →
  fritzcallforwarding.parse_item int_of_str filter_blocked
    (ET.mkElement tg tx (ET.children item ++ extra))
  = fritzcallforwarding.parse_item int_of_str filter_blocked item.
Proof.
  intros [Hchildren Henable].
  unfold item_children in Hchildren. rewrite !Forall_cons in Hchildren.
  destruct Hchildren as (Huid & Hen & Hty & Hnum & Hto & _).
  unfold fritzcallforwarding.parse_item.
  rewrite !(find_app tg tx item extra) by assumption. reflexivity.
Qed.

Lemma parse_item_first_child_wins_witness :
  fritzcallforwarding.parse_item py_int_of_string true
    (ET.mkElement "Item" None
       (ET.children (mock.item "0" "1" "fromNumber" "0301234567"
                       (Some "0307654321"))
        ++ [ET.mkElement "Enable" (Some "0") []]))
  = Ok (Some
    (item_record py_int_of_string (mock.item "0" "1" "fromNumber" "0301234567"
                             (Some "0307654321")))).
Proof.
  rewrite (parse_item_first_child_wins py_int_of_string true
             (mock.item "0" "1" "fromNumber" "0301234567" (Some "0307654321"))).
  - vm_compute. reflexivity.
  - apply (bool_decide_unpack _). vm_compute. exact I.
Defined.

(** ** The class [FritzCallforwarding] *)

Section CallForwardingClass.
Import fritzcallforwarding.
Variable int_of_str : string → option Z.
Variable fc : FritzConnection.

Lemma action_run (actionname : string) (kw : kwargs) (t : trace) :
  action (init fc) actionname kw t
  = (of_reply (ontel_reply fc actionname kw), t ++ [ontel_call actionname kw]).
Proof.
  assert (service_name (init fc) = ontel) as Hname by (vm_compute; reflexivity).
  unfold action, ontel_reply, ontel_call. rewrite Hname.
  cbv [mbind M_bind emit lift]. simpl.
  destruct (call_action fc ontel actionname None kw); reflexivity.
Qed.

Lemma get_call_forwarding_by_uid_run (uid : pyval) (d : dict) (z : Z)
    (t : trace) :
  deflection_reply fc uid = Reply d →
  deflection_status int_of_str d z →
  get_call_forwarding_by_uid int_of_str (init fc) uid t
  = (Ok (deflection_info uid d z), t ++ [deflection_call uid]).
Proof.
  intros Hreply ([number Hnumber] & [to Hto] & [type Htype]
                 & (v & Hv & Hz)).
  unfold get_call_forwarding_by_uid, deflection_info.
  unfold mbind at 1. unfold M_bind at 1.
  rewrite action_run. unfold deflection_reply in Hreply.
  rewrite Hreply. simpl.
  cbv [mbind M_bind lift getitem mret M_ret].
  rewrite Hnumber, Hto, Htype, Hv. simpl. rewrite Hz. reflexivity.
Qed.

Lemma get_call_forwarding_status_by_uid_run (uid : pyval) (d : dict) (z : Z)
    (t : trace) :
  deflection_reply fc uid = Reply d →
  deflection_status int_of_str d z →
  get_call_forwarding_status_by_uid int_of_str (init fc) uid t
  = (Ok (VInt z), t ++ [deflection_call uid]).
Proof.
  intros Hreply Hstatus. unfold get_call_forwarding_status_by_uid.
  unfold mbind at 1. unfold M_bind at 1.
  rewrite (get_call_forwarding_by_uid_run uid d z) by assumption.
  reflexivity.
Qed.

Lemma set_call_forwarding_run (uid enable : pyval) (r d : dict) (z : Z)
    (t : trace) :
  switch_reply fc uid enable = Reply r →
  deflection_reply fc uid = Reply d →
  deflection_status int_of_str d z →
  set_call_forwarding int_of_str (init fc) uid enable t
  = (Ok (VInt z), t ++ [switch_call uid enable; deflection_call uid]).
Proof.
  intros Hswitch Hreply Hstatus. unfold set_call_forwarding.
  unfold mbind at 1. unfold M_bind at 1.
  rewrite action_run. unfold switch_reply in Hswitch. rewrite Hswitch. simpl.
  rewrite (get_call_forwarding_status_by_uid_run uid d z) by assumption.
  rewrite <- app_assoc. reflexivity.
Qed.

End CallForwardingClass.

Section CallForwardingOutput.
Import fritzcallforwarding.
Variable int_of_str : string → option Z.
Variable str_lower : string → string.
Variable fc : FritzConnection.
Variable bound_method_repr : string.

Lemma deflection_info_nonempty (uid : pyval) (d : dict) (z : Z) :
  bool_decide (deflection_info uid d z ≠ ∅) = true.
Proof.
  apply bool_decide_eq_true_2. unfold deflection_info.
  apply insert_non_empty.
Qed.

Lemma print_detail_quiet (detail : detail_arg) (u : string) (d : dict)
    (z : Z) (out : list string) (t : trace) :
  first_of detail = Ok u →
  deflection_reply fc (VStr (str_lower u)) = Reply d →
  deflection_status int_of_str d z →
  _print_detail int_of_str str_lower (init fc) bound_method_repr detail true
    out t
  = (Ok (), t ++ [deflection_call (VStr (str_lower u))], out ++ [pretty z]).
Proof.
  intros Hfirst Hreply Hstatus. unfold _print_detail.
  unfold mbind at 1. unfold IO_bind at 1. unfold io at 1, lift at 1.
  rewrite Hfirst. simpl.
  unfold mbind at 1. unfold IO_bind at 1. unfold io at 1.
  rewrite (get_call_forwarding_by_uid_run int_of_str fc _ d z) by assumption.
  rewrite deflection_info_nonempty. simpl.
  unfold mbind at 1. unfold IO_bind at 1. unfold io at 1, lift at 1.
  reflexivity.
Qed.

Lemma deflection_info_lookup (uid : pyval) (d : dict) (z : Z) :
  deflection_info uid d z !! "uid" = Some uid
  ∧ deflection_info uid d z !! "from_number"
    = Some (default VNone (d !! "NewNumber"))
  ∧ deflection_info uid d z !! "to_number"
    = Some (default VNone (d !! "NewDeflectionToNumber"))
  ∧ deflection_info uid d z !! "connection_type"
    = Some (default VNone (d !! "NewType"))
  ∧ deflection_info uid d z !! "enabled" = Some (VInt z).
Proof.
  unfold deflection_info.
  generalize (default VNone (d !! "NewNumber")).
  generalize (default VNone (d !! "NewDeflectionToNumber")).
  generalize (default VNone (d !! "NewType")).
  intros type to number. repeat split; vm_compute; reflexivity.
Qed.

Lemma print_detail_verbose (detail : detail_arg) (u : string) (d : dict)
    (z : Z) (out : list string) (t : trace) :
  first_of detail = Ok u →
  deflection_reply fc (VStr (str_lower u)) = Reply d →
  deflection_status int_of_str d z →
  _print_detail int_of_str str_lower (init fc) bound_method_repr detail false
    out t
  = (Ok (), t ++ [deflection_call (VStr (str_lower u))],
     out ++ [ nl +:+ ljust 30 "Details for index:" +:+ str_lower u;
              ljust 30 "" +:+ ontel +:+ bound_method_repr +:+ nl;
              ljust 30 "uid" +:+ ": " +:+ str_lower u;
              ljust 30 "from_number" +:+ ": "
                +:+ py_str (default VNone (d !! "NewNumber"));
              ljust 30 "to_number" +:+ ": "
                +:+ py_str (default VNone (d !! "NewDeflectionToNumber"));
              ljust 30 "connection_type" +:+ ": "
                +:+ py_str (default VNone (d !! "NewType"));
              ljust 30 "enabled" +:+ ": " +:+ pretty z ]).
Proof.
  intros Hfirst Hreply Hstatus.
  assert (service_name (init fc) = ontel) as Hname by (vm_compute; reflexivity).
  unfold _print_detail.
  unfold mbind at 1. unfold IO_bind at 1. unfold io at 1, lift at 1.
  rewrite Hfirst. simpl.
  unfold mbind at 1. unfold IO_bind at 1. unfold io at 1.
  rewrite (get_call_forwarding_by_uid_run int_of_str fc _ d z) by assumption.
  rewrite deflection_info_nonempty, Hname. simpl negb. cbv iota.
  destruct (deflection_info_lookup (VStr (str_lower u)) d z)
    as (Huid & Hfrom & Hto & Htype & Henabled).
  unfold info_keys, print_items.
  rewrite Huid, Hfrom, Hto, Htype, Henabled.
  cbv [mbind IO_bind print mret IO_ret].
  rewrite <- !app_assoc. reflexivity.
Qed.

Lemma print_detail_empty (detail : detail_arg) (quiet : bool)
    (out : list string) (t : trace) :
  first_of detail = Raise IndexError →
  _print_detail int_of_str str_lower (init fc) bound_method_repr detail quiet
    out t
  = (Raise IndexError, t, out).
Proof.
  intros Hfirst. unfold _print_detail.
  unfold mbind at 1. unfold IO_bind at 1. unfold io at 1, lift at 1.
  rewrite Hfirst. reflexivity.
Qed.

End CallForwardingOutput.

(** X14. The two ways to a record agree.  Let [record] be one of the
    records that [parse_call_forwarding_list] returns for a document, and
    let the answer of [GetDeflection] for the [uid] of that record carry
    the record's [from_number], [to_number] and [connection_type] and an
    enable value of which [int] makes the record's [enabled]:
    [get_call_forwarding_by_uid(uid)] returns, after that single call, a
    dict equal to the record of the list. *)
Theorem get_call_forwarding_by_uid_agrees_with_list
    (int_of_str : string → option Z)
    (fromstring : string → reply ET.Element) (fc : FritzConnection)
    (blob : string) (filter_blocked : bool) (records : list dict)
    (record d : dict) (uid v : pyval) (z : Z) (t : trace) :
  fritzcallforwarding.parse_call_forwarding_list int_of_str fromstring blob
    filter_blocked = Ok records →
  record ∈ records →
  record !! "uid" = Some uid →
  deflection_reply fc uid = Reply d →
  d !! "NewNumber" = record !! "from_number" →
  d !! "NewDeflectionToNumber" = record !! "to_number" →
  d !! "NewType" = record !! "connection_type" →
  d !! "NewEnable" = Some v →
  fritzcallforwarding.py_int_of_val int_of_str v = Ok z →
  record !! "enabled" = Some (VInt z) →
  fritzcallforwarding.get_call_forwarding_by_uid int_of_str
    (fritzcallforwarding.init fc) uid t
  = (Ok record, t ++ [deflection_call uid]).
Proof.
  intros Hparse Hin Huid Hreply Hnumber Hto Htype Hv Hz Henabled.
  destruct (parse_call_forwarding_list_returns int_of_str fromstring blob
              filter_blocked records Hparse)
    as (root & _ & _ & ->).
  apply list_elem_of_fmap in Hin as (item & -> & _).
  destruct (item_record_lookup int_of_str item)
    as (Ruid & Rfrom & Rto & Rtype & Renabled).
  rewrite Ruid in Huid. injection Huid as <-.
  rewrite Rfrom in Hnumber. rewrite Rto in Hto. rewrite Rtype in Htype.
  rewrite Renabled in Henabled. injection Henabled as Henabled.
  rewrite (get_call_forwarding_by_uid_run int_of_str fc _ d z); [|assumption|].
  - unfold deflection_info, item_record.
    rewrite Hnumber, Hto, Htype, Henabled. reflexivity.
  - unfold deflection_status. rewrite Hnumber, Hto, Htype. eauto 10.
Qed.

Lemma get_call_forwarding_by_uid_agrees_with_list_witness :
  mock.fromstring_more "one_item" = Reply mock.one_item
  ∧ run (fritzcallforwarding.get_call_forwarding_by_uid py_int_of_string
           (fritzcallforwarding.init mock.ontel_fc) (VStr "12"))
    = (Ok (item_record py_int_of_string
             (mock.item "12" "1" "fromAll" "0301234567" (Some "0309999999"))),
       [deflection_call (VStr "12")]).
Proof.
  split; [reflexivity|].
  apply (get_call_forwarding_by_uid_agrees_with_list py_int_of_string
           mock.fromstring_more mock.ontel_fc "one_item" true
           [item_record py_int_of_string
              (mock.item "12" "1" "fromAll" "0301234567" (Some "0309999999"))]
           (item_record py_int_of_string
              (mock.item "12" "1" "fromAll" "0301234567" (Some "0309999999")))
           (mock.deflection "0301234567" "0309999999" "fromAll" 1)
           (VStr "12") (VInt 1) 1%Z []).
  - vm_compute. reflexivity.
  - apply list_elem_of_here.
  - vm_compute. reflexivity.
  - reflexivity.
  - vm_compute. reflexivity.
  - vm_compute. reflexivity.
  - vm_compute. reflexivity.
  - vm_compute. reflexivity.
  - reflexivity.
  - vm_compute. reflexivity.
Defined.

(** X15. [set_call_forwarding(uid, enable)]: when the router rejects the
    switch, the exception is raised after that single call and the status
    is not read again; when it accepts, the status of [uid] is read once
    more and the value returned is the integer the router then reports,
    whatever [enable] was. *)
Theorem set_call_forwarding_reads_back
    (int_of_str : string → option Z)
    (fc : FritzConnection) (uid enable : pyval) (t : trace) :
  (∀ e, switch_reply fc uid enable = Fault e →
        fritzcallforwarding.set_call_forwarding int_of_str
          (fritzcallforwarding.init fc) uid enable t
        = (Raise e, t ++ [switch_call uid enable]))
  ∧ (∀ r d z, switch_reply fc uid enable = Reply r →
        deflection_reply fc uid = Reply d →
        deflection_status int_of_str d z →
        fritzcallforwarding.set_call_forwarding int_of_str
          (fritzcallforwarding.init fc) uid enable t
        = (Ok (VInt z), t ++ [switch_call uid enable; deflection_call uid])).
Proof.
  split.
  - intros e Hswitch. unfold fritzcallforwarding.set_call_forwarding.
    unfold mbind at 1. unfold M_bind at 1.
    rewrite action_run. unfold switch_reply in Hswitch. rewrite Hswitch.
    reflexivity.
  - intros r d z. apply set_call_forwarding_run.
Qed.

(** The router of the examples goes on reporting [0] for the deflection
    [1] that was switched on. *)
Example set_call_forwarding_on_mock :
  run (fritzcallforwarding.set_call_forwarding py_int_of_string
         (fritzcallforwarding.init mock.ontel_fc) (VStr "1") (VInt 1))
  = (Ok (VInt 0),
     [switch_call (VStr "1") (VInt 1); deflection_call (VStr "1")]).
Proof. vm_compute. reflexivity. Qed.

(** X16. [_print_switch] with the options [uid state], in quiet mode: it
    switches the deflection [uid] on when [state] is one of the words on,
    enable, enabled, active (in any case) and off for any other word, reads
    the status of [uid] back, and then looks up and prints the status of
    the deflection named by the FIRST CHARACTER of [uid]: [_print_detail]
    takes element 0 of what it is given, and it is given the string. *)
Theorem print_switch_shows_first_character
    (int_of_str : string → option Z) (str_lower : string → string)
    (fc : FritzConnection) (bound_method_repr : string) (u w : string)
    (c : ascii) (rest : string) (r d1 d2 : dict) (z1 z2 : Z)
    (out : list string) (t : trace) :
  str_lower u = String c rest →
  switch_reply fc (VStr (str_lower u)) (VInt (switch_flag str_lower w))
  = Reply r →
  deflection_reply fc (VStr (str_lower u)) = Reply d1 →
  deflection_status int_of_str d1 z1 →
  deflection_reply fc
    (VStr (str_lower (String c (fritzcallforwarding.continuation rest))))
  = Reply d2 →
  deflection_status int_of_str d2 z2 →
  fritzcallforwarding._print_switch int_of_str str_lower
    (fritzcallforwarding.init fc)
    bound_method_repr [u; w] true out t
  = (Ok (),
     t ++ [ switch_call (VStr (str_lower u)) (VInt (switch_flag str_lower w));
            deflection_call (VStr (str_lower u));
            deflection_call
              (VStr (str_lower
                       (String c (fritzcallforwarding.continuation rest)))) ],
     out ++ [pretty z2]).
Proof.
  intros Hu Hswitch Hd1 Hz1 Hd2 Hz2.
  unfold fritzcallforwarding._print_switch.
  unfold mbind at 1. unfold IO_bind at 1. unfold io at 1, lift at 1. simpl.
  unfold mbind at 1. unfold IO_bind at 1. unfold io at 1, lift at 1. simpl.
  unfold mbind at 1. unfold IO_bind at 1.
  assert ((if bool_decide (str_lower w ∈ ["on"; "enable"; "enabled"; "active"])
           then io (fritzcallforwarding.set_call_forwarding int_of_str
                      (fritzcallforwarding.init fc) (VStr (str_lower u))
                        (VInt 1))
           else io (fritzcallforwarding.set_call_forwarding int_of_str
                      (fritzcallforwarding.init fc) (VStr (str_lower u))
                        (VInt 0)))
          = io (fritzcallforwarding.set_call_forwarding int_of_str
                  (fritzcallforwarding.init fc) (VStr (str_lower u))
                  (VInt (switch_flag str_lower w)))) as ->.
  { unfold switch_flag. by case_bool_decide. }
  unfold io at 1.
  rewrite (set_call_forwarding_run int_of_str fc _ _ r d1 z1) by assumption.
  rewrite (print_detail_quiet int_of_str str_lower fc bound_method_repr
             (fritzcallforwarding.DetailString (str_lower u))
             (String c (fritzcallforwarding.continuation rest)) d2 z2);
    [|by rewrite Hu|assumption..].
  rewrite <- app_assoc. reflexivity.
Qed.

Lemma print_switch_shows_first_character_witness :
  fritzcallforwarding._print_switch py_int_of_string lower
    (fritzcallforwarding.init mock.ontel_fc)
    "" ["12"; "ON"] true [] []
  = (Ok (),
     [ switch_call (VStr "12") (VInt 1);
       deflection_call (VStr "12");
       deflection_call (VStr "1") ],
     ["0"]).
Proof.
  apply (print_switch_shows_first_character py_int_of_string lower
           mock.ontel_fc "" "12" "ON"
           "1"%char "2" ∅
           (mock.deflection "0301234567" "0309999999" "fromAll" 1)
           (mock.deflection "0301111111" "0307654321" "fromNumber" 0)
           1%Z 0%Z [] []).
  - reflexivity.
  - reflexivity.
  - reflexivity.
  - repeat split; vm_compute; eauto.
  - reflexivity.
  - repeat split; vm_compute; eauto.
Defined.

(** X17. [_print_detail] for a deflection that the router knows makes one
    call only, the lookup of the deflection: the number of deflections is
    never asked for (the method is printed, not called).  In quiet mode it
    prints the status as one line; otherwise it prints a heading, the
    service with the method object, and the five fields of the record in
    the order uid, from_number, to_number, connection_type, enabled. *)
Theorem print_detail_output
    (int_of_str : string → option Z) (str_lower : string → string)
    (fc : FritzConnection) (bound_method_repr : string)
    (detail : fritzcallforwarding.detail_arg) (u : string) (d : dict)
    (z : Z) (out : list string) (t : trace) :
  fritzcallforwarding.first_of detail = Ok u →
  deflection_reply fc (VStr (str_lower u)) = Reply d →
  deflection_status int_of_str d z →
  fritzcallforwarding._print_detail int_of_str str_lower
    (fritzcallforwarding.init fc)
    bound_method_repr detail true out t
  = (Ok (), t ++ [deflection_call (VStr (str_lower u))], out ++ [pretty z])
  ∧ fritzcallforwarding._print_detail int_of_str str_lower
    (fritzcallforwarding.init fc)
      bound_method_repr detail false out t
    = (Ok (), t ++ [deflection_call (VStr (str_lower u))],
       out ++ [ nl +:+ ljust 30 "Details for index:" +:+ str_lower u;
                ljust 30 "" +:+ ontel +:+ bound_method_repr +:+ nl;
                ljust 30 "uid" +:+ ": " +:+ str_lower u;
                ljust 30 "from_number" +:+ ": "
                  +:+ py_str (default VNone (d !! "NewNumber"));
                ljust 30 "to_number" +:+ ": "
                  +:+ py_str (default VNone (d !! "NewDeflectionToNumber"));
                ljust 30 "connection_type" +:+ ": "
                  +:+ py_str (default VNone (d !! "NewType"));
                ljust 30 "enabled" +:+ ": " +:+ pretty z ]).
Proof.
  intros Hfirst Hreply Hstatus. split.
  - by apply print_detail_quiet with d.
  - by apply print_detail_verbose.
Qed.

Lemma print_detail_output_witness :
  fritzcallforwarding._print_detail py_int_of_string lower
    (fritzcallforwarding.init mock.ontel_fc)
    "<bound method>" (fritzcallforwarding.DetailList ["12"]) true [] []
  = (Ok (), [deflection_call (VStr "12")], ["1"]).
Proof.
  refine (proj1
    (print_detail_output py_int_of_string lower mock.ontel_fc "<bound method>"
                   (fritzcallforwarding.DetailList ["12"]) "12"
                   (mock.deflection "0301234567" "0309999999" "fromAll" 1)
                   1%Z [] [] _ _ _)).
  - reflexivity.
  - reflexivity.
  - repeat split; vm_compute; eauto.
Defined.

(** X18. [get_call_forwarding_list(filter_blocked)] makes one call, the
    action [GetDeflections], and hands the string of its answer to the
    parser: an error of the XML parser is raised unchanged, and for a
    document whose items carry the five children and an [Enable] text that
    [int] accepts the records of the items are returned, without the
    blocked numbers when [filter_blocked] is true. *)
Theorem get_call_forwarding_list_parses_answer
    (int_of_str : string → option Z)
    (fromstring : string → reply ET.Element) (fc : FritzConnection)
    (d : dict) (blob : string) (filter_blocked : bool) (t : trace) :
  ontel_reply fc "GetDeflections" [] = Reply d →
  d !! "NewDeflectionList" = Some (VStr blob) →
  fritzcallforwarding.get_call_forwarding_list int_of_str fromstring
    (fritzcallforwarding.init fc) filter_blocked t
  = (fritzcallforwarding.parse_call_forwarding_list int_of_str fromstring blob
       filter_blocked,
     t ++ [ontel_call "GetDeflections" []])
  ∧ (∀ e, fromstring blob = Fault e →
          fritzcallforwarding.get_call_forwarding_list int_of_str fromstring
            (fritzcallforwarding.init fc) filter_blocked t
          = (Raise e, t ++ [ontel_call "GetDeflections" []]))
  ∧ (∀ root, fromstring blob = Reply root →
          Forall (well_formed int_of_str) (ET.findall root "Item") →
          fritzcallforwarding.get_call_forwarding_list int_of_str fromstring
            (fritzcallforwarding.init fc) filter_blocked t
          = (Ok (item_record int_of_str
                   <$> kept_items filter_blocked (ET.findall root "Item")),
             t ++ [ontel_call "GetDeflections" []])).
Proof.
  intros Hreply Hblob.
  assert (fritzcallforwarding.get_call_forwarding_list int_of_str fromstring
            (fritzcallforwarding.init fc) filter_blocked t
          = (fritzcallforwarding.parse_call_forwarding_list int_of_str
            fromstring blob
               filter_blocked,
             t ++ [ontel_call "GetDeflections" []])) as Hrun.
  { unfold fritzcallforwarding.get_call_forwarding_list.
    unfold mbind at 1. unfold M_bind at 1.
    rewrite action_run, Hreply. simpl.
    cbv [mbind M_bind lift getitem]. rewrite Hblob. reflexivity. }
  split; [exact Hrun|]. split.
  - intros e Hfault. rewrite Hrun.
    unfold fritzcallforwarding.parse_call_forwarding_list.
    rewrite Hfault. reflexivity.
  - intros root Hroot Hitems. rewrite Hrun.
    unfold fritzcallforwarding.parse_call_forwarding_list.
    rewrite Hroot. simpl.
    rewrite parse_items_well_formed by assumption. reflexivity.
Qed.

Lemma get_call_forwarding_list_parses_answer_witness :
  run (fritzcallforwarding.get_call_forwarding_list py_int_of_string
         mock.fromstring
         (fritzcallforwarding.init mock.ontel_fc) true)
  = (fritzcallforwarding.parse_call_forwarding_list py_int_of_string
    mock.fromstring
       "three_items" true,
     [ontel_call "GetDeflections" []]).
Proof.
  refine (proj1
    (get_call_forwarding_list_parses_answer py_int_of_string mock.fromstring
                   mock.ontel_fc
                   {[ "NewDeflectionList" := VStr "three_items" ]}
                   "three_items" true [] _ _)); reflexivity.
Defined.
